(** * File converter backend: job lifecycle and conversion orchestration

    A shallow embedding of [backend/app.py]: the in-memory job registry
    [conversion_status], the LibreOffice gateway [convert_with_libreoffice],
    the three conversion handlers, the two download handlers and the status
    handler, followed by the properties of the specification that concern
    them.

    Python dictionaries are [gmap]s, the set of existing paths is a [gset],
    and the handlers are written in a small state-and-exception monad whose
    state holds everything the handlers can read or change. *)

From Stdlib Require Import ZArith NArith String Ascii List Permutation.
From stdpp Require Import gmap strings list fin_maps.

Local Open Scope string_scope.

(** ** Python strings

    Strings are byte strings; the text operations below are those of
    Python's [str] on ASCII text. *)

Module PyStr.

Definition chars (s : string) : list ascii := list_ascii_of_string s.
Definition of_chars (l : list ascii) : string := string_of_list_ascii l.

Definition code (a : ascii) : nat := nat_of_ascii a.

Definition is_upper (a : ascii) : bool := (65 <=? code a)%nat && (code a <=? 90)%nat.
Definition is_lower (a : ascii) : bool := (97 <=? code a)%nat && (code a <=? 122)%nat.
Definition is_digit (a : ascii) : bool := (48 <=? code a)%nat && (code a <=? 57)%nat.

(** [str.isspace] on one ASCII character: TAB..CR, FS..US and SPACE. *)
Definition isspace (a : ascii) : bool :=
  ((9 <=? code a)%nat && (code a <=? 13)%nat)
  || ((28 <=? code a)%nat && (code a <=? 32)%nat).

Definition lower_char (a : ascii) : ascii :=
  if is_upper a then ascii_of_nat (code a + 32) else a.

(** [s.lower()] *)
Definition lower (s : string) : string := of_chars (map lower_char (chars s)).

Fixpoint prefixb (p l : list ascii) : bool :=
  match p, l with
  | [], _ => true
  | a :: p', b :: l' => Ascii.eqb a b && prefixb p' l'
  | _ :: _, [] => false
  end.

(** [s.endswith(p)] *)
Definition endswith (s p : string) : bool := prefixb (rev (chars p)) (rev (chars s)).

(** [s.rfind(c)] for a single character; [None] stands for Python's -1. *)
Fixpoint rfind_chars (c : ascii) (l : list ascii) : option nat :=
  match l with
  | [] => None
  | a :: l' =>
      match rfind_chars c l' with
      | Some i => Some (S i)
      | None => if Ascii.eqb a c then Some 0%nat else None
      end
  end.
Definition rfind (s : string) (c : ascii) : option nat := rfind_chars c (chars s).

(** [s[:i]] and [s[i:]] *)
Definition slice_to (s : string) (i : nat) : string := of_chars (take i (chars s)).
Definition slice_from (s : string) (i : nat) : string := of_chars (drop i (chars s)).

Fixpoint lstrip_chars (p : ascii -> bool) (l : list ascii) : list ascii :=
  match l with
  | a :: l' => if p a then lstrip_chars p l' else l
  | [] => []
  end.
Definition strip_chars (p : ascii -> bool) (l : list ascii) : list ascii :=
  rev (lstrip_chars p (rev (lstrip_chars p l))).

(** [s.strip()] *)
Definition strip (s : string) : string := of_chars (strip_chars isspace (chars s)).

(** [s.split()]: the maximal runs of non-blank characters. *)
Fixpoint split_ws (cur : list ascii) (l : list ascii) : list (list ascii) :=
  match l with
  | [] => match cur with [] => [] | _ => [rev cur] end
  | a :: l' =>
      if isspace a
      then match cur with [] => split_ws [] l' | _ => rev cur :: split_ws [] l' end
      else split_ws (a :: cur) l'
  end.

(** [sep.join(parts)] *)
Fixpoint join (sep : list ascii) (parts : list (list ascii)) : list ascii :=
  match parts with
  | [] => []
  | [p] => p
  | p :: rest => p ++ sep ++ join sep rest
  end.

(** A Python string is falsy exactly when it is empty. *)
Definition truthy (s : string) : bool :=
  match s with EmptyString => false | String _ _ => true end.

End PyStr.

(** ** Paths ([pathlib.Path] on POSIX)

    A path is its string. The only joins the program performs put a fixed
    relative directory in front of a single file name. *)

Module PyPath.

(** [Path(d) / n], for a relative name [n]. *)
Definition join (d n : string) : string := d ++ "/" ++ n.

(** [Path(p).name]: the final component. *)
Definition name (p : string) : string :=
  match PyStr.rfind p "/"%char with
  | Some i => PyStr.slice_from p (S i)
  | None => p
  end.

(** [Path(p).stem]: the final component without its last suffix. A dot in
    first or in last position does not start a suffix. *)
Definition stem (p : string) : string :=
  let n := name p in
  match PyStr.rfind n "."%char with
  | Some i =>
      if ((0 <? i)%nat && (i <? String.length n - 1)%nat)%bool
      then PyStr.slice_to n i else n
  | None => n
  end.

End PyPath.

(** ** Python values, dictionaries and exceptions *)

Inductive pyval : Type :=
| VNone
| VBool (b : bool)
| VInt (n : Z)
| VStr (s : string).

#[global] Instance pyval_eq_dec : EqDecision pyval.
Proof. solve_decision. Defined.

(** A dictionary with string keys, such as a job record or a JSON body. *)
Abbreviation dict := (gmap string pyval).

Inductive exn_class : Type :=
| FileNotFoundError
| OSError
| KeyError
| TypeError
| TimeoutExpired
| OtherException.

#[global] Instance exn_class_eq_dec : EqDecision exn_class.
Proof. solve_decision. Defined.

(** An exception: its class and the text [str(e)] gives. *)
Record exn : Type := Exn { exn_cls : exn_class; exn_str : string }.

(** ** The world outside the program

    What the program cannot decide is supplied by the environment: the
    identifiers [uuid.uuid4()] draws, werkzeug's [secure_filename], whether
    an upload can be written to disk, what a spawned process does, and what
    the in-process [pdf2docx] converter does (the exception it raises, if
    any, and what is on disk afterwards). The
    first argument of each oracle is the number of interactions with the
    world so far, so that two interactions need not answer alike. *)

Record process : Type := Process {
  spawn_error : option exn;                 (* the process could not be started *)
  running_time : N;                         (* seconds until it exits by itself *)
  returncode : Z;
  proc_stdout : string;
  proc_stderr : string;
  fs_effect : gset string → gset string     (* what it leaves on disk *)
}.

Class Env : Type := {
  uuid4_str : nat → string;
  secure_filename : string → string;
  save_error : nat → string → option exn;
  exec : nat → list string → gset string → process;
  pdf2docx : nat → string → string → gset string → option exn * gset string
}.

(** ** Program state *)

Record state : Type := State {
  conversion_status : gmap string dict;           (* the job registry *)
  fs : gset string;                               (* paths that exist *)
  archives : gmap string (list (string * string)); (* ZIP files: (name in archive, path read) *)
  stdout : list string;                           (* lines printed, oldest first *)
  tick : nat;                                     (* interactions with the world *)
  history : list (gmap string dict)               (* every earlier value of the registry, newest first *)
}.

Definition initial_state (files : gset string) : state :=
  {| conversion_status := ∅; fs := files; archives := ∅;
     stdout := []; tick := 0; history := [] |}.

Definition with_status (st : gmap string dict) (s : state) : state :=
  {| conversion_status := st; fs := fs s; archives := archives s;
     stdout := stdout s; tick := tick s;
     history := conversion_status s :: history s |}.

Definition with_fs (f : gset string) (s : state) : state :=
  {| conversion_status := conversion_status s; fs := f; archives := archives s;
     stdout := stdout s; tick := tick s; history := history s |}.

Definition with_archives (a : gmap string (list (string * string))) (s : state) : state :=
  {| conversion_status := conversion_status s; fs := fs s; archives := a;
     stdout := stdout s; tick := tick s; history := history s |}.

Definition with_stdout (o : list string) (s : state) : state :=
  {| conversion_status := conversion_status s; fs := fs s; archives := archives s;
     stdout := o; tick := tick s; history := history s |}.

Definition next_tick (s : state) : state :=
  {| conversion_status := conversion_status s; fs := fs s; archives := archives s;
     stdout := stdout s; tick := S (tick s); history := history s |}.

(** ** The monad of handlers: state and exceptions *)

Inductive outcome (A : Type) : Type :=
| Return (a : A)
| Raise (e : exn).
Arguments Return {A} a.
Arguments Raise {A} e.

Definition M (A : Type) : Type := state → outcome A * state.

#[global] Instance M_ret : MRet M := λ A a s, (Return a, s).
#[global] Instance M_bind : MBind M := λ A B f m s,
  match m s with
  | (Return a, s') => f a s'
  | (Raise e, s') => (Raise e, s')
  end.

Definition raise {A} (e : exn) : M A := λ s, (Raise e, s).

(** [try: body except Exception as e: handler(e)] *)
Definition try_except {A} (body : M A) (handler : exn → M A) : M A := λ s,
  match body s with
  | (Return a, s') => (Return a, s')
  | (Raise e, s') => handler e s'
  end.

Definition gets {A} (f : state → A) : M A := λ s, (Return (f s), s).
Definition modify (f : state → state) : M unit := λ s, (Return tt, f s).

(** [print(line)] *)
Definition print (line : string) : M unit :=
  modify (λ s, with_stdout (stdout s ++ [line])%list s).

(** [d[k]] *)
Definition getitem (d : dict) (k : string) : M pyval :=
  match d !! k with
  | Some v => mret v
  | None => raise (Exn KeyError ("'" ++ k ++ "'"))
  end.

(** [Path(v)]: only a string names a path. *)
Definition as_path (v : pyval) : M string :=
  match v with
  | VStr p => mret p
  | _ => raise (Exn TypeError "expected str, bytes or os.PathLike object")
  end.

(** The name [zipf.write(src, arcname)] stores a member under: [arcname], or
    the path read when [arcname] is [None]. (Plain file names and relative
    paths are stored as they are.) *)
Definition zip_arcname (src : string) (arcname : pyval) : M string :=
  match arcname with
  | VStr n => mret n
  | VNone => mret src
  | _ => raise (Exn TypeError "expected str, bytes or os.PathLike object")
  end.

Section WithEnv.
Context {E : Env}.

(** [str(uuid.uuid4())] *)
Definition uuid4 : M string := λ s, (Return (uuid4_str (tick s)), next_tick s).

(** *** The registry *)

(** [file_id in conversion_status] *)
Definition status_contains (file_id : string) : M bool :=
  gets (λ s, bool_decide (is_Some (conversion_status s !! file_id))).

(** [conversion_status[file_id]] *)
Definition status_get (file_id : string) : M dict := λ s,
  match conversion_status s !! file_id with
  | Some d => (Return d, s)
  | None => (Raise (Exn KeyError ("'" ++ file_id ++ "'")), s)
  end.

(** [conversion_status[file_id] = record] *)
Definition status_set (file_id : string) (record : dict) : M unit :=
  modify (λ s, with_status (<[file_id := record]> (conversion_status s)) s).

(** [conversion_status[file_id][key] = v]: the stored record is changed in place. *)
Definition status_set_item (file_id key : string) (v : pyval) : M unit :=
  record ← status_get file_id;
  status_set file_id (<[key := v]> record).

(** *** The file system *)

(** [Path(p).exists()] *)
Definition path_exists (p : string) : M bool :=
  gets (λ s, bool_decide (p ∈ fs s)).

Definition no_such_file (what : string) : exn :=
  Exn FileNotFoundError ("[Errno 2] No such file or directory: " ++ what).

(** [file.save(p)] *)
Definition file_save (p : string) : M unit := λ s,
  match save_error (tick s) p with
  | Some e => (Raise e, next_tick s)
  | None => (Return tt, with_fs ({[p]} ∪ fs s) (next_tick s))
  end.

(** [Path(src).rename(dst)] *)
Definition path_rename (src dst : string) : M unit := λ s,
  if bool_decide (src ∈ fs s)
  then (Return tt, with_fs ({[dst]} ∪ fs s ∖ {[src]}) s)
  else (Raise (no_such_file ("'" ++ src ++ "' -> '" ++ dst ++ "'")), s).

(** [Path(p).unlink()] *)
Definition path_unlink (p : string) : M unit := λ s,
  if bool_decide (p ∈ fs s)
  then (Return tt, with_fs (fs s ∖ {[p]}) s)
  else (Raise (no_such_file ("'" ++ p ++ "'")), s).

(** *** Processes *)

(** [subprocess.run(cmd, capture_output=True, text=True, timeout=t)]; the
    result is the [CompletedProcess] as (returncode, stdout, stderr).
    Without a timeout the call waits for the process to exit. *)
Definition subprocess_run (cmd : list string) (timeout : option N)
  : M (Z * string * string) := λ s,
  let p := exec (tick s) cmd (fs s) in
  match spawn_error p with
  | Some e => (Raise e, next_tick s)
  | None =>
      let s' := with_fs (fs_effect p (fs s)) (next_tick s) in
      match timeout with
      | Some t =>
          if (running_time p <=? t)%N
          then (Return (returncode p, proc_stdout p, proc_stderr p), s')
          else (Raise (Exn TimeoutExpired "Command timed out"), s')
      | None => (Return (returncode p, proc_stdout p, proc_stderr p), s')
      end
  end.

(** *** ZIP archives *)

(** [zipfile.ZipFile(p, 'w')]: a new, empty archive replaces whatever was at [p]. *)
Definition zip_open (p : string) : M unit :=
  modify (λ s, with_archives (<[p := []]> (archives s)) (with_fs ({[p]} ∪ fs s) s)).

(** [zipf.write(src, arcname)]: duplicates of [arcname] are kept. *)
Definition zip_write (p src arcname : string) : M unit := λ s,
  if bool_decide (src ∈ fs s)
  then (Return tt,
        with_archives (<[p := (default [] (archives s !! p) ++ [(arcname, src)])%list]> (archives s)) s)
  else (Raise (no_such_file ("'" ++ src ++ "'")), s).

End WithEnv.

(** ** Requests and responses (Flask) *)

(** An uploaded file as the handlers see it: the name the client claims. *)
Record FileStorage : Type := { filename : string }.

(** A multipart request: [request.files] and [request.form] are multi-dicts,
    kept as association lists in arrival order. *)
Record request : Type := {
  files : list (string * FileStorage);
  form : list (string * string)
}.

(** [d[key]] / [d.get(key)] of a multi-dict: the first value of the key;
    [key in d] holds when there is one. *)
Fixpoint multi_get {V} (key : string) (d : list (string * V)) : option V :=
  match d with
  | [] => None
  | (k, v) :: d' => if String.eqb k key then Some v else multi_get key d'
  end.

(** [d.getlist(key)]: every value of the key, in order. *)
Fixpoint multi_getlist {V} (key : string) (d : list (string * V)) : list V :=
  match d with
  | [] => []
  | (k, v) :: d' =>
      if String.eqb k key then v :: multi_getlist key d' else multi_getlist key d'
  end.

Inductive response : Type :=
| Json (body : dict) (code : Z)                       (* jsonify(body), code *)
| JsonResults (results : list dict)                   (* jsonify({'results': results}) *)
| SendFile (path : string) (download_name : pyval).   (* send_file(path, as_attachment=True, download_name=...) *)

Definition response_code (r : response) : Z :=
  match r with
  | Json _ c => c
  | JsonResults _ => 200
  | SendFile _ _ => 200
  end.

(** ** Configuration *)

Definition UPLOAD_FOLDER : string := "uploads".
Definition CONVERTED_FOLDER : string := "converted".
Definition ALLOWED_EXTENSIONS : gset string := {[ "docx"; "pdf" ]}.

(** ['.' in filename and filename.rsplit('.', 1)[1].lower() in ALLOWED_EXTENSIONS]:
    the text after the last dot, in lower case, is an allowed extension. *)
Definition allowed_file (filename : string) : bool :=
  match PyStr.rfind filename "." with
  | Some i => bool_decide (PyStr.lower (PyStr.slice_from filename (S i)) ∈ ALLOWED_EXTENSIONS)
  | None => false
  end.

Section Handlers.
Context {E : Env}.

(** ** The LibreOffice gateway *)

Definition possible_paths : list string :=
  [ "/Applications/LibreOffice.app/Contents/MacOS/soffice";
    "/usr/local/bin/soffice";
    "/opt/homebrew/bin/soffice" ].

Fixpoint first_existing (paths : list string) : M (option string) :=
  match paths with
  | [] => mret None
  | p :: rest =>
      found ← path_exists p;
      if (found : bool) then mret (Some p) else first_existing rest
  end.

Definition find_libreoffice : M (option string) :=
  found ← first_existing possible_paths;
  match found with
  | Some p => mret (Some p)
  | None =>
      try_except
        (result ← subprocess_run ["which"; "soffice"] None;
         let '(rc, out, _) := result in
         if (rc =? 0)%Z then mret (Some (PyStr.strip out)) else mret None)
        (λ _, mret None)
  end.

(** [not soffice_path]: [None] and the empty string are falsy. *)
Definition falsy_path (p : option string) : bool :=
  match p with
  | None => true
  | Some p => negb (PyStr.truthy p)
  end.

Definition libreoffice_not_found : exn :=
  Exn FileNotFoundError
    "LibreOffice not found. Please install LibreOffice from https://www.libreoffice.org/download/".

(** The command line: for PDF output the filter [writer_pdf_Export] is named,
    for DOCX output LibreOffice chooses. *)
Definition soffice_command (soffice_path output_dir output_format input_file : string)
  : list string :=
  let filter_name :=
    if String.eqb output_format "pdf" then Some "writer_pdf_Export" else None in
  [ soffice_path;
    "--headless";
    "--convert-to";
    match filter_name with
    | None => output_format
    | Some f => output_format ++ ":" ++ f
    end;
    "--outdir";
    output_dir;
    input_file ].

(** The result is the path of the converted file, or [None]. *)
Definition convert_with_libreoffice (input_file output_dir output_format : string)
  : M (option string) :=
  soffice_path ← find_libreoffice;
  if falsy_path soffice_path then raise libreoffice_not_found
  else
    let cmd := soffice_command (default "" soffice_path) output_dir output_format input_file in
    try_except
      (result ← subprocess_run cmd (Some 60%N);
       let '(rc, _, err) := result in
       if negb (rc =? 0)%Z then
         print ("LibreOffice conversion error: " ++ err);;
         mret None
       else
         let input_stem := PyPath.stem input_file in
         let converted_file := PyPath.join output_dir (input_stem ++ "." ++ output_format) in
         found ← path_exists converted_file;
         if (found : bool) then mret (Some converted_file)
         else
           print ("Converted file not found: " ++ converted_file);;
           mret None)
      (λ e,
         match exn_cls e with
         | TimeoutExpired => print "Conversion timeout";; mret None
         | _ => print ("Conversion error: " ++ exn_str e);; mret None
         end).

(** [cv = Converter(src); cv.convert(dst); cv.close()] *)
Definition pdf2docx_convert (src dst : string) : M unit := λ s,
  let '(err, fs') := pdf2docx (tick s) src dst (fs s) in
  let s' := with_fs fs' (next_tick s) in
  match err with
  | Some e => (Raise e, s')
  | None => (Return tt, s')
  end.

(** ** Job records *)

Definition processing_record : dict :=
  {[ "status" := VStr "processing"; "progress" := VInt 0 ]}.

Definition error_record (message : string) : dict :=
  {[ "status" := VStr "error"; "message" := VStr message ]}.

Definition completed_record (output_file original_name : string) : dict :=
  {[ "status" := VStr "completed"; "progress" := VInt 100;
     "output_file" := VStr output_file; "original_name" := VStr original_name ]}.

Definition error_body (message : string) : dict := {[ "error" := VStr message ]}.

Definition completed_body (file_id original_name : string) : dict :=
  {[ "file_id" := VStr file_id; "status" := VStr "completed";
     "original_name" := VStr original_name ]}.

(** ** POST /api/convert/docx-to-pdf *)

Definition convert_docx_to_pdf (req : request) : M response :=
  match multi_get "file" (files req) with
  | None => mret (Json (error_body "No file provided") 400)
  | Some file =>
      if String.eqb (filename file) "" then
        mret (Json (error_body "No file selected") 400)
      else if negb (PyStr.endswith (PyStr.lower (filename file)) ".docx") then
        mret (Json (error_body "File must be a .docx document") 400)
      else
        try_except
          (file_id ← uuid4;
           status_set file_id processing_record;;
           let filename := secure_filename (filename file) in
           let input_path := PyPath.join UPLOAD_FOLDER (file_id ++ "_" ++ filename) in
           file_save input_path;;
           status_set_item file_id "progress" (VInt 30);;
           output_path ← convert_with_libreoffice input_path CONVERTED_FOLDER "pdf";
           match output_path with
           | None =>
               status_set file_id (error_record "Conversion failed");;
               mret (Json (error_body "Conversion failed") 500)
           | Some output_path =>
               let final_output :=
                 PyPath.join CONVERTED_FOLDER
                   (file_id ++ "_" ++ PyPath.stem filename ++ ".pdf") in
               path_rename output_path final_output;;
               status_set file_id
                 (completed_record final_output (PyPath.stem filename ++ ".pdf"));;
               path_unlink input_path;;
               mret (Json (completed_body file_id (PyPath.stem filename ++ ".pdf")) 200)
           end)
          (λ e,
             print ("Error: " ++ exn_str e);;
             mret (Json (error_body (exn_str e)) 500))
  end.

(** ** POST /api/convert/pdf-to-docx *)

Definition convert_pdf_to_docx (req : request) : M response :=
  match multi_get "file" (files req) with
  | None => mret (Json (error_body "No file provided") 400)
  | Some file =>
      if String.eqb (filename file) "" then
        mret (Json (error_body "No file selected") 400)
      else if negb (PyStr.endswith (PyStr.lower (filename file)) ".pdf") then
        mret (Json (error_body "File must be a .pdf document") 400)
      else
        try_except
          (file_id ← uuid4;
           status_set file_id processing_record;;
           let filename := secure_filename (filename file) in
           let input_path := PyPath.join UPLOAD_FOLDER (file_id ++ "_" ++ filename) in
           file_save input_path;;
           status_set_item file_id "progress" (VInt 30);;
           let filename_stem := PyPath.stem filename in
           let final_output :=
             PyPath.join CONVERTED_FOLDER (file_id ++ "_" ++ filename_stem ++ ".docx") in
           converted ←
             try_except
               (pdf2docx_convert input_path final_output;; mret None)
               (λ e,
                  print ("pdf2docx error: " ++ exn_str e);;
                  status_set file_id (error_record ("Conversion failed: " ++ exn_str e));;
                  mret (Some (Json (error_body ("Conversion failed: " ++ exn_str e)) 500)));
           match converted with
           | Some failure => mret failure
           | None =>
               status_set file_id
                 (completed_record final_output (filename_stem ++ ".docx"));;
               path_unlink input_path;;
               mret (Json (completed_body file_id (filename_stem ++ ".docx")) 200)
           end)
          (λ e,
             print ("Error: " ++ exn_str e);;
             mret (Json (error_body (exn_str e)) 500))
  end.

(** ** POST /api/convert/batch *)

Definition batch_error (name reason : string) : dict :=
  {[ "filename" := VStr name; "error" := VStr reason ]}.

Definition batch_success (name file_id original_name : string) : dict :=
  {[ "filename" := VStr name; "file_id" := VStr file_id;
     "status" := VStr "completed"; "original_name" := VStr original_name ]}.

(** One turn of the loop over the uploaded files; the result is the list
    [results] after the turn. No statement of the [try] block follows an
    [append], so the handler of the [except] clause sees [results] as it
    was when the turn began. *)
Definition convert_batch_file (direction : string) (file : FileStorage)
    (results : list dict) : M (list dict) :=
  if String.eqb (filename file) "" then mret results
  else
    let expected := if String.eqb direction "docx-to-pdf" then ".docx" else ".pdf" in
    if negb (PyStr.endswith (PyStr.lower (filename file)) expected) then
      mret (results ++ [batch_error (filename file) "Invalid file type"])%list
    else
      try_except
        (file_id ← uuid4;
         status_set file_id processing_record;;
         let filename' := secure_filename (filename file) in
         let input_path := PyPath.join UPLOAD_FOLDER (file_id ++ "_" ++ filename') in
         file_save input_path;;
         let output_format := if String.eqb direction "docx-to-pdf" then "pdf" else "docx" in
         output_path ← convert_with_libreoffice input_path CONVERTED_FOLDER output_format;
         match output_path with
         | None =>
             mret (results ++ [batch_error (filename file) "Conversion failed"])%list
         | Some output_path =>
             let final_output :=
               PyPath.join CONVERTED_FOLDER
                 (file_id ++ "_" ++ PyPath.stem filename' ++ "." ++ output_format) in
             path_rename output_path final_output;;
             status_set file_id
               (completed_record final_output
                  (PyPath.stem filename' ++ "." ++ output_format));;
             path_unlink input_path;;
             mret (results ++
                   [batch_success (filename file) file_id
                      (PyPath.stem filename' ++ "." ++ output_format)])%list
         end)
        (λ e, mret (results ++ [batch_error (filename file) (exn_str e)])%list).

Fixpoint convert_batch_loop (direction : string) (todo : list FileStorage)
    (results : list dict) : M (list dict) :=
  match todo with
  | [] => mret results
  | file :: rest =>
      results' ← convert_batch_file direction file results;
      convert_batch_loop direction rest results'
  end.

Definition convert_batch (req : request) : M response :=
  match multi_get "files" (files req) with
  | None => mret (Json (error_body "No files provided") 400)
  | Some _ =>
      let files := multi_getlist "files" (files req) in
      let direction := default "docx-to-pdf" (multi_get "direction" (form req)) in
      results ← convert_batch_loop direction files [];
      mret (JsonResults results)
  end.

(** ** GET /api/download/<file_id> *)

Definition download_file (file_id : string) : M response :=
  known ← status_contains file_id;
  if negb known then mret (Json (error_body "File not found") 404)
  else
    status ← status_get file_id;
    st ← getitem status "status";
    if negb (bool_decide (st = VStr "completed")) then
      mret (Json (error_body "File not ready") 400)
    else
      output_file ← getitem status "output_file" ≫= as_path;
      found ← path_exists output_file;
      if negb found then mret (Json (error_body "File not found") 404)
      else
        download_name ← getitem status "original_name";
        mret (SendFile output_file download_name).

(** ** POST /api/download/bulk

    [file_ids] is the decoded list of identifiers of the request body. *)

Definition download_bulk_add (zip_path file_id : string) : M unit :=
  known ← status_contains file_id;
  if negb known then mret tt
  else
    status ← status_get file_id;
    st ← getitem status "status";
    if negb (bool_decide (st = VStr "completed")) then mret tt
    else
      output_file ← getitem status "output_file" ≫= as_path;
      found ← path_exists output_file;
      if negb found then mret tt
      else
        arcname ← getitem status "original_name" ≫= zip_arcname output_file;
        zip_write zip_path output_file arcname.

Fixpoint download_bulk_loop (zip_path : string) (file_ids : list string) : M unit :=
  match file_ids with
  | [] => mret tt
  | file_id :: rest =>
      download_bulk_add zip_path file_id;;
      download_bulk_loop zip_path rest
  end.

Definition download_bulk (file_ids : list string) : M response :=
  match file_ids with
  | [] => mret (Json (error_body "No files specified") 400)
  | _ :: _ =>
      zip_id ← uuid4;
      let zip_path := PyPath.join CONVERTED_FOLDER (zip_id ++ "_converted_files.zip") in
      zip_open zip_path;;
      download_bulk_loop zip_path file_ids;;
      mret (SendFile zip_path (VStr "converted_files.zip"))
  end.

(** ** GET /api/status/<file_id> *)

Definition get_status (file_id : string) : M response :=
  known ← status_contains file_id;
  if negb known then mret (Json (error_body "File not found") 404)
  else
    status ← status_get file_id;
    mret (Json status 200).

(** ** GET /api/health *)

Definition health_check : M response :=
  soffice_path ← find_libreoffice;
  mret (Json {[ "status" := VStr "healthy";
                "libreoffice_found" := VBool (bool_decide (is_Some soffice_path));
                "libreoffice_path" := from_option VStr VNone soffice_path ]} 200).

End Handlers.

(** * Vocabulary of the properties *)

(** ** State predicates kept by a computation *)

Definition preserves {A} (P : state → Prop) (m : M A) : Prop :=
  ∀ s, P s → P (m s).2.

(** ** Results of a computation *)

(** [m] never raises, and what it returns satisfies [Q]. *)
Definition returns {A} (m : M A) (Q : A → Prop) : Prop :=
  ∀ s, ∃ a, (m s).1 = Return a ∧ Q a.

(** Whatever [m] returns satisfies [Q]; it may raise instead. *)
Definition yields {A} (m : M A) (Q : A → Prop) : Prop :=
  ∀ s, match (m s).1 with Return a => Q a | Raise _ => True end.

(** ** The record invariant *)

(** A record carries an output location exactly when it is completed. *)
Definition record_ok (r : dict) : Prop :=
  is_Some (r !! "output_file") ↔ r !! "status" = Some (VStr "completed").

Definition registry_ok (st : gmap string dict) : Prop :=
  ∀ file_id r, st !! file_id = Some r → record_ok r.

(** The registry is well formed now and was so at every earlier moment. *)
Definition always_ok (s : state) : Prop :=
  Forall registry_ok (conversion_status s :: history s).

(** A predicate that looks at the registry and its history only. *)
Definition registry_only (P : state → Prop) : Prop :=
  ∀ s s', conversion_status s' = conversion_status s → history s' = history s →
          P s → P s'.

(** ** The shape of job records *)

(** A converted document: a path that ends in [.pdf] or [.docx]. *)
Definition converted_name (p : string) : bool :=
  PyStr.endswith p ".pdf" || PyStr.endswith p ".docx".

(** The download handlers can read the record: it has a status, and a
    completed record names its output file and its display name. *)
Definition readable (r : dict) : Prop :=
  ∃ st, r !! "status" = Some st
        ∧ (st = VStr "completed" →
           ∃ out name, r !! "output_file" = Some (VStr out)
                       ∧ r !! "original_name" = Some (VStr name)).

(** A record the conversion handlers write: readable, and the output file of
    a completed record is a converted document. *)
Definition job_shape (r : dict) : Prop :=
  ∃ st, r !! "status" = Some st
        ∧ (st = VStr "completed" →
           ∃ out name, r !! "output_file" = Some (VStr out)
                       ∧ r !! "original_name" = Some (VStr name)
                       ∧ converted_name out = true).

Definition registry_shaped (s : state) : Prop :=
  ∀ file_id r, conversion_status s !! file_id = Some r → job_shape r.

(** ** Reachable states

    The server starts with an empty registry; afterwards requests are
    served one after the other, each under whatever the environment does
    during it, and between requests the files on disk may change. *)

Inductive reachable : state → Prop :=
| reach_start (on_disk : gset string) :
    reachable (initial_state on_disk)
| reach_disk (s : state) (on_disk : gset string) :
    reachable s → reachable (with_fs on_disk s)
| reach_docx_to_pdf (E : Env) (req : request) (s : state) :
    reachable s → reachable (convert_docx_to_pdf req s).2
| reach_pdf_to_docx (E : Env) (req : request) (s : state) :
    reachable s → reachable (convert_pdf_to_docx req s).2
| reach_batch (E : Env) (req : request) (s : state) :
    reachable s → reachable (convert_batch req s).2
| reach_download (file_id : string) (s : state) :
    reachable s → reachable (download_file file_id s).2
| reach_download_bulk (E : Env) (file_ids : list string) (s : state) :
    reachable s → reachable (download_bulk file_ids s).2
| reach_status (file_id : string) (s : state) :
    reachable s → reachable (get_status file_id s).2
| reach_health (E : Env) (s : state) :
    reachable s → reachable (health_check s).2.

(** ** Entries of a batch result *)

(** An entry of the batch result that belongs to the uploaded [file]: the
    metadata of its job, or an inline error with the reason. Both carry the
    file's name as the client gave it. *)
Definition batch_entry_for (file : FileStorage) (d : dict) : Prop :=
  (∃ file_id original_name, d = batch_success (filename file) file_id original_name)
  ∨ (∃ reason, d = batch_error (filename file) reason).

(** The uploads the loop does not skip. *)
Definition named (todo : list FileStorage) : list FileStorage :=
  filter (λ file, filename file ≠ "") todo.

(** ** Members of an archive *)

(** What the identifier contributes to an archive, given the registry and
    the files on disk: the display name and the output file of its job when
    the job is completed and the file exists, and nothing otherwise. *)
Definition archive_member (st : gmap string dict) (on_disk : gset string)
    (file_id : string) : option (string * string) :=
  match st !! file_id with
  | Some r =>
      if bool_decide (r !! "status" = Some (VStr "completed")) then
        match r !! "output_file", r !! "original_name" with
        | Some (VStr out), Some (VStr name) =>
            if bool_decide (out ∈ on_disk) then Some (name, out) else None
        | _, _ => None
        end
      else None
  | None => None
  end.

(** The identifier is unknown, or its record is readable. *)
Definition readable_id (st : gmap string dict) (file_id : string) : Prop :=
  match st !! file_id with
  | Some r => readable r
  | None => True
  end.

Definition add_member (zip_path : string) (m : option (string * string)) (s : state) : state :=
  match m with
  | Some entry =>
      with_archives
        (<[zip_path := (default [] (archives s !! zip_path) ++ [entry])%list]> (archives s)) s
  | None => s
  end.

(** The job resolves: it is completed and its output file is on disk. *)
Definition resolves (s : state) (file_id : string) : Prop :=
  ∃ r out, conversion_status s !! file_id = Some r
           ∧ r !! "status" = Some (VStr "completed")
           ∧ r !! "output_file" = Some (VStr out)
           ∧ out ∈ fs s.

(** The members the identifiers contribute, in the order of the list. *)
Definition members (st : gmap string dict) (on_disk : gset string)
    (file_ids : list string) : list (string * string) :=
  omap (archive_member st on_disk) file_ids.

(** The archive the bulk download writes for a request with identifiers. *)
Definition bulk_zip_path {E : Env} (s : state) : string :=
  PyPath.join CONVERTED_FOLDER (uuid4_str (tick s) ++ "_converted_files.zip").

(** ** Repeated status queries *)

(** [n] status queries for the same identifier, one after the other; the
    result is the list of the answers. *)
Fixpoint poll (n : nat) (file_id : string) : M (list response) :=
  match n with
  | O => mret []
  | S n' =>
      r ← get_status file_id;
      rs ← poll n' file_id;
      mret (r :: rs)
  end.

(** ** The gateway contract *)

(** The outcomes of the gateway contract of the specification. *)
Inductive conversion_result : Type :=
| Converted (output_path : string)
| ConversionUnavailable
| ConversionTimeout
| ConversionFailed.

(** The outcome the contract names for a conversion started in state [s]:
    unavailable when LibreOffice is not found; timed out when the process
    runs for more than 60 seconds; failed when the process cannot be
    started, exits with a nonzero code, or leaves no output file of the
    expected name; converted otherwise. *)
Definition contract_result {E : Env} (input_file output_dir output_format : string) (s : state)
  : conversion_result :=
  match find_libreoffice s with
  | (Return soffice_path, s1) =>
      if falsy_path soffice_path then ConversionUnavailable
      else
        let p := exec (tick s1)
                   (soffice_command (default "" soffice_path) output_dir output_format input_file)
                   (fs s1) in
        let expected :=
          PyPath.join output_dir (PyPath.stem input_file ++ "." ++ output_format) in
        match spawn_error p with
        | Some _ => ConversionFailed
        | None =>
            if (60 <? running_time p)%N then ConversionTimeout
            else if negb (returncode p =? 0)%Z then ConversionFailed
            else if bool_decide (expected ∈ fs_effect p (fs s1)) then Converted expected
            else ConversionFailed
        end
  | (Raise _, _) => ConversionFailed
  end.

(** What the caller of [convert_with_libreoffice] sees of each outcome. *)
Definition gateway_outcome (c : conversion_result) : outcome (option string) :=
  match c with
  | Converted output_path => Return (Some output_path)
  | ConversionUnavailable => Raise libreoffice_not_found
  | ConversionTimeout => Return None
  | ConversionFailed => Return None
  end.

(** ** One request *)

(** The registry holds the identifier. *)
Definition known (k : string) (s : state) : Prop :=
  is_Some (conversion_status s !! k).

(** [serves s s']: one request, served from state [s] under some behaviour
    of the environment, leaves the server in state [s']. *)
Inductive serves : state → state → Prop :=
| serve_docx_to_pdf (E : Env) (req : request) (s : state) :
    serves s (convert_docx_to_pdf req s).2
| serve_pdf_to_docx (E : Env) (req : request) (s : state) :
    serves s (convert_pdf_to_docx req s).2
| serve_batch (E : Env) (req : request) (s : state) :
    serves s (convert_batch req s).2
| serve_download (file_id : string) (s : state) :
    serves s (download_file file_id s).2
| serve_download_bulk (E : Env) (file_ids : list string) (s : state) :
    serves s (download_bulk file_ids s).2
| serve_status (file_id : string) (s : state) :
    serves s (get_status file_id s).2
| serve_health (E : Env) (s : state) :
    serves s (health_check s).2.

(** ** Further vocabulary *)

(** The direction of a batch request, and the extension the batch handler
    expects of its files. *)
Definition batch_direction (req : request) : string :=
  default "docx-to-pdf" (multi_get "direction" (form req)).

Definition expected_extension (direction : string) : string :=
  if String.eqb direction "docx-to-pdf" then ".docx" else ".pdf".

(** The forms of a job record. *)
Inductive job_form : dict → Prop :=
| form_processing : job_form processing_record
| form_saved : job_form (<["progress" := VInt 30]> processing_record)
| form_error (message : string) : job_form (error_record message)
| form_completed (output_file original_name : string) :
    job_form (completed_record output_file original_name).

Definition registry_formed (s : state) : Prop :=
  ∀ file_id r, conversion_status s !! file_id = Some r → job_form r.

(** The line [print(f"{label}{e}")] writes. *)
Definition printed_line (label : string) (e : exn) : string := label ++ exn_str e.

(** Where a single-file handler started in state [s] stages the upload
    [file], and where it puts the converted document of extension [ext]. *)
Definition staged_path {E : Env} (s : state) (file : FileStorage) : string :=
  PyPath.join UPLOAD_FOLDER (uuid4_str (tick s) ++ "_" ++ secure_filename (filename file)).

Definition output_path {E : Env} (s : state) (file : FileStorage) (ext : string) : string :=
  PyPath.join CONVERTED_FOLDER
    (uuid4_str (tick s) ++ "_" ++ PyPath.stem (secure_filename (filename file)) ++ ext).

(** The answer of a conversion is a success or a server error. *)
Definition success_or_error (r : response) : Prop :=
  response_code r = 200%Z ∨ response_code r = 500%Z.

(** The request carries, in the part [file], an upload whose name ends, in
    lower case, in [ext]. *)
Definition upload_named (req : request) (ext : string) : Prop :=
  ∃ file, multi_get "file" (files req) = Some file
          ∧ PyStr.endswith (PyStr.lower (filename file)) ext = true.

(** The registry has [r0] (a record, or nothing) at the identifier [k]. *)
Definition holds_at (k : string) (r0 : option dict) (s : state) : Prop :=
  conversion_status s !! k = r0.

(** * Scenarios *)

(** ** Concrete environments

    werkzeug's [secure_filename] on ASCII names under POSIX: path separators
    become blanks, runs of blanks become one underscore, every character
    outside [A-Za-z0-9_.-] is dropped, and leading and trailing dots and
    underscores are stripped. Bytes above 127 are dropped. *)

Module Scenario.

Definition keeps (a : ascii) : bool :=
  PyStr.is_upper a || PyStr.is_lower a || PyStr.is_digit a
  || Ascii.eqb a "_" || Ascii.eqb a "." || Ascii.eqb a "-".

Definition dot_or_underscore (a : ascii) : bool := Ascii.eqb a "." || Ascii.eqb a "_".

Definition werkzeug_secure_filename (name : string) : string :=
  let ascii_only := filter (λ a, PyStr.code a < 128)%nat (PyStr.chars name) in
  let no_sep := map (λ a, if Ascii.eqb a "/" then " "%char else a) ascii_only in
  let joined := PyStr.join ["_"%char] (PyStr.split_ws [] no_sep) in
  PyStr.of_chars (PyStr.strip_chars dot_or_underscore (filter (λ a, keeps a = true) joined)).

Definition uuids : list string :=
  [ "0b8e5a52-5c0e-4d6c-9b1a-3f2e7d4c1a90";
    "6f1d2c3b-8a47-4e59-b0c2-7d9e1f3a5b68";
    "c4a7e9d1-2b36-4f80-a5d3-9e8b7c6f1a24";
    "e2f4a6c8-1d3b-4a5c-8e7f-0a9b8c7d6e5f";
    "19d0c7b5-6e2a-4f13-9a84-5b3c2d1e0f76";
    "a8b6c4d2-0e1f-4273-b594-6c7d8e9f0a1b";
    "5e3c1a97-b8d6-4f42-8c0a-1d2e3f4a5b6c";
    "72f0e8d6-c4b2-4a09-9e7d-5c3b1a0f8e6d" ].

Definition uuid_at (n : nat) : string := nth n uuids "ffffffff-ffff-4fff-8fff-ffffffffffff".

(** The part of [--convert-to]'s argument before the filter name. *)
Definition target_extension (fmt : string) : string :=
  match PyStr.rfind fmt ":" with
  | Some i => PyStr.slice_to fmt i
  | None => fmt
  end.

(** A LibreOffice run that takes [seconds], exits with [rc], and, when [rc]
    is 0, leaves the converted file in the output directory. Any other
    command (the [which soffice] probe) exits with 1. *)
Definition soffice (seconds : N) (rc : Z) (cmd : list string) : process :=
  match cmd with
  | [_; "--headless"; "--convert-to"; fmt; "--outdir"; outdir; input] =>
      Process None seconds rc "" "Error: source file could not be loaded"
        (λ files,
           if (rc =? 0)%Z
           then {[ PyPath.join outdir (PyPath.stem input ++ "." ++ target_extension fmt) ]} ∪ files
           else files)
  | _ => Process None 0 1 "" "" (λ files, files)
  end.

Definition env_with (seconds : N) (rc : Z) : Env :=
  {| uuid4_str := uuid_at;
     secure_filename := werkzeug_secure_filename;
     save_error := λ _ _, None;
     exec := λ _ cmd _, soffice seconds rc cmd;
     pdf2docx := λ _ _ dst files, (None, {[dst]} ∪ files) |}.

(** LibreOffice converts in four seconds / fails / hangs for two minutes. *)
Definition env_ok : Env := env_with 4 0.
Definition env_fail : Env := env_with 4 1.
Definition env_slow : Env := env_with 120 0.

(** A machine with LibreOffice installed, and one without. *)
Definition installed : state := initial_state {[ "/usr/local/bin/soffice" ]}.
Definition not_installed : state := initial_state ∅.

Definition upload (field name : string) : string * FileStorage :=
  (field, {| filename := name |}).

Definition single (name : string) : request :=
  {| files := [upload "file" name]; form := [] |}.

Definition batch (names : list string) (direction : string) : request :=
  {| files := map (upload "files") names; form := [("direction", direction)] |}.

End Scenario.

Module AfterReport.
Import Scenario.

(** The state after [report.docx] has been converted on a machine with
    LibreOffice, and the record the registry then holds for it. *)
Definition after : state := (@convert_docx_to_pdf env_ok (single "report.docx") installed).2.

Definition job : string := uuid_at 0.

Definition record : dict :=
  completed_record ("converted/" ++ job ++ "_report.pdf") "report.pdf".

End AfterReport.

Module FailedBatch.
Import Scenario.

(** A batch of one document on a machine whose LibreOffice exits with 1. *)
Definition run : outcome response * state :=
  @convert_batch env_fail (batch ["report.docx"] "docx-to-pdf") installed.

(** The same document sent to the single-file endpoint. *)
Definition run_single : outcome response * state :=
  @convert_docx_to_pdf env_fail (single "report.docx") installed.

(** The single-file endpoint on a machine without LibreOffice. *)
Definition run_not_installed : outcome response * state :=
  @convert_docx_to_pdf env_ok (single "report.docx") not_installed.

Definition job : string := uuid_at 0.

Definition staged : string := "uploads/" ++ job ++ "_report.docx".

End FailedBatch.

Module MixedBatch.
Import Scenario.

(** Three parts under [files], the second one with an empty file name. *)
Definition req : request := batch ["a.docx"; ""; "b.txt"] "docx-to-pdf".

Definition run : outcome response * state := @convert_batch env_ok req installed.

End MixedBatch.

Module Downloads.
Import Scenario.

(** [report.docx] has been converted; then [broken.docx] has failed. *)
Definition two_jobs : state :=
  (@convert_docx_to_pdf env_fail (single "broken.docx") AfterReport.after).2.

Definition completed_id : string := uuid_at 0.
Definition failed_id : string := uuid_at 3.
Definition unknown_id : string := "00000000-0000-4000-8000-000000000000".

Definition completed_rec : dict :=
  completed_record ("converted/" ++ completed_id ++ "_report.pdf") "report.pdf".

Definition zip_path : string := "converted/" ++ uuid_at 6 ++ "_converted_files.zip".

(** A bulk download of identifiers none of which resolves. *)
Definition none_valid : outcome response * state :=
  @download_bulk env_ok [unknown_id; failed_id] two_jobs.

(** The output of the completed job has been removed from disk. *)
Definition artifact_gone : state := with_fs ∅ AfterReport.after.

End Downloads.

Module Gateway.
Import Scenario.

Definition staged : string := "uploads/" ++ uuid_at 0 ++ "_report.docx".

(** LibreOffice hangs for two minutes / exits with 1 after four seconds. *)
Definition slow : outcome (option string) * state :=
  @convert_with_libreoffice env_slow staged CONVERTED_FOLDER "pdf" installed.
Definition failing : outcome (option string) * state :=
  @convert_with_libreoffice env_fail staged CONVERTED_FOLDER "pdf" installed.

End Gateway.

Module SpacedName.
Import Scenario.

(** A document whose name has a blank in it. *)
Definition run : outcome response * state :=
  @convert_docx_to_pdf env_ok (single "My report.docx") installed.

Definition job : string := uuid_at 0.

Definition output : string := "converted/" ++ job ++ "_My_report.pdf".

End SpacedName.

Module PdfPath.
Import Scenario.

(** [pdf2docx] raises [err], if any, and writes the document only when
    [writes] is set. *)
Definition env_pdf (err : option exn) (writes : bool) : Env :=
  {| uuid4_str := uuid_at;
     secure_filename := werkzeug_secure_filename;
     save_error := λ _ _, None;
     exec := λ _ cmd _, soffice 4 0 cmd;
     pdf2docx := λ _ _ dst files, (err, if writes then {[dst]} ∪ files else files) |}.

Definition scanned : exn := Exn OtherException "no text layer".

(** The converter rejects the file / returns without writing anything. *)
Definition env_rejects : Env := env_pdf (Some scanned) false.
Definition env_silent : Env := env_pdf None false.

Definition req : request := single "scan.pdf".

End PdfPath.

Module Later.
Import Scenario.

(** An environment whose identifiers are the later ones of the list. *)
Definition env_later : Env :=
  {| uuid4_str := λ n, uuid_at (4 + n);
     secure_filename := werkzeug_secure_filename;
     save_error := λ _ _, None;
     exec := λ _ cmd _, soffice 4 0 cmd;
     pdf2docx := λ _ _ dst files, (None, {[dst]} ∪ files) |}.

(** A second document is converted after [report.docx]. *)
Definition second : outcome response * state :=
  @convert_docx_to_pdf env_later (single "notes.docx") AfterReport.after.

End Later.

Module Probe.
Import Scenario.

(** [which soffice] exits with [rc] after printing [out]; a LibreOffice run
    converts in four seconds. *)
Definition env_which (rc : Z) (out : string) : Env :=
  {| uuid4_str := uuid_at;
     secure_filename := werkzeug_secure_filename;
     save_error := λ _ _, None;
     exec := λ _ cmd _,
       match cmd with
       | ["which"; "soffice"] => Process None 0 rc out "" (λ files, files)
       | _ => soffice 4 0 cmd
       end;
     pdf2docx := λ _ _ dst files, (None, {[dst]} ∪ files) |}.

(** LibreOffice is on the PATH only / [which] succeeds and prints nothing. *)
Definition on_path : Env := env_which 0 "/usr/bin/soffice
".
Definition blank : Env := env_which 0 "".

End Probe.

(** * Properties *)

(** ** Strings, paths and file names *)

Example stem_docx : PyPath.stem "uploads/7f3a_report.v2.docx" = "7f3a_report.v2".
Proof. reflexivity. Qed.
Example stem_hidden : PyPath.stem ".docx" = ".docx".
Proof. reflexivity. Qed.
Example lower_mixed : PyStr.lower "Report.DOCX" = "report.docx".
Proof. reflexivity. Qed.
Example endswith_docx : PyStr.endswith (PyStr.lower "Report.DOCX") ".docx" = true.
Proof. reflexivity. Qed.
Example strip_which : PyStr.strip "/usr/bin/soffice
" = "/usr/bin/soffice".
Proof. reflexivity. Qed.

Example secure_filename_blank :
  Scenario.werkzeug_secure_filename "My cool movie.mov" = "My_cool_movie.mov".
Proof. reflexivity. Qed.

Example secure_filename_traversal :
  Scenario.werkzeug_secure_filename "../../../etc/passwd" = "etc_passwd".
Proof. reflexivity. Qed.

(** ** State predicates kept by a computation *)

Section Preservation.
Context {E : Env} (P : state → Prop).

Lemma preserves_ret {A} (a : A) : preserves P (mret a).
Proof. by intros s. Qed.

Lemma preserves_raise {A} (e : exn) : preserves P (raise e : M A).
Proof. by intros s. Qed.

Lemma preserves_gets {A} (f : state → A) : preserves P (gets f).
Proof. by intros s. Qed.

Lemma preserves_bind {A B} (m : M A) (f : A → M B) :
  preserves P m → (∀ a, preserves P (f a)) → preserves P (m ≫= f).
Proof.
  intros Hm Hf s Hs. specialize (Hm s Hs).
  unfold mbind, M_bind. destruct (m s) as [[a|e] s']; simpl in *; [|done].
  by apply Hf.
Qed.

Lemma preserves_try {A} (body : M A) (h : exn → M A) :
  preserves P body → (∀ e, preserves P (h e)) → preserves P (try_except body h).
Proof.
  intros Hm Hh s Hs. specialize (Hm s Hs).
  unfold try_except. destruct (body s) as [[a|e] s']; simpl in *; [done|].
  by apply Hh.
Qed.

Lemma preserves_modify (f : state → state) :
  (∀ s, P s → P (f s)) → preserves P (modify f).
Proof. intros Hf s Hs. by apply Hf. Qed.

End Preservation.

(** ** The record invariant *)

Lemma always_ok_registry_only : registry_only always_ok.
Proof. intros s s' Hst Hh. unfold always_ok. by rewrite Hst, Hh. Qed.

Lemma processing_record_ok : record_ok processing_record.
Proof.
  unfold record_ok, processing_record. split.
  - intros [v Hv]. by simplify_map_eq.
  - intros Hs. by simplify_map_eq.
Qed.

Lemma error_record_ok message : record_ok (error_record message).
Proof.
  unfold record_ok, error_record. split.
  - intros [v Hv]. by simplify_map_eq.
  - intros Hs. by simplify_map_eq.
Qed.

Lemma completed_record_ok output_file original_name :
  record_ok (completed_record output_file original_name).
Proof.
  unfold record_ok, completed_record. split.
  - intros _. by simplify_map_eq.
  - intros _. eexists. by simplify_map_eq.
Qed.

Lemma progress_record_ok (r : dict) (v : pyval) :
  record_ok r → record_ok (<["progress" := v]> r).
Proof. unfold record_ok. by rewrite !lookup_insert_ne. Qed.

Lemma registry_ok_insert (st : gmap string dict) file_id r :
  registry_ok st → record_ok r → registry_ok (<[file_id := r]> st).
Proof.
  intros Hst Hr k r'. rewrite lookup_insert. case_decide.
  - intros [= <-]. done.
  - apply Hst.
Qed.

Section RegistryUntouched.
Context {E : Env} (P : state → Prop) (HP : registry_only P).

(** Everything but the two registry writes leaves the registry and its
    history alone. *)
Ltac untouched :=
  intros s Hs; cbv beta delta [uuid4 print modify file_save path_rename path_unlink
    subprocess_run zip_open zip_write pdf2docx_convert] in *;
  repeat (case_match; simpl); eapply HP; try eassumption; reflexivity.

Lemma preserves_uuid4 : preserves P uuid4.
Proof. untouched. Qed.
Lemma preserves_print line : preserves P (print line).
Proof. untouched. Qed.
Lemma preserves_file_save p : preserves P (file_save p).
Proof. untouched. Qed.
Lemma preserves_path_rename src dst : preserves P (path_rename src dst).
Proof. untouched. Qed.
Lemma preserves_path_unlink p : preserves P (path_unlink p).
Proof. untouched. Qed.
Lemma preserves_subprocess_run cmd t : preserves P (subprocess_run cmd t).
Proof. untouched. Qed.
Lemma preserves_zip_open p : preserves P (zip_open p).
Proof. untouched. Qed.
Lemma preserves_zip_write p src arcname : preserves P (zip_write p src arcname).
Proof. untouched. Qed.
Lemma preserves_pdf2docx_convert src dst : preserves P (pdf2docx_convert src dst).
Proof. untouched. Qed.
Lemma preserves_path_exists p : preserves P (path_exists p).
Proof. by intros s. Qed.
Lemma preserves_status_contains file_id : preserves P (status_contains file_id).
Proof. by intros s. Qed.
Lemma preserves_status_get file_id : preserves P (status_get file_id).
Proof. intros s Hs. unfold status_get. by case_match. Qed.
Lemma preserves_getitem d k : preserves P (getitem d k).
Proof. intros s Hs. unfold getitem. by case_match. Qed.
Lemma preserves_as_path v : preserves P (as_path v).
Proof. intros s Hs. unfold as_path. by case_match. Qed.
Lemma preserves_zip_arcname src v : preserves P (zip_arcname src v).
Proof. intros s Hs. unfold zip_arcname. by case_match. Qed.

Lemma preserves_first_existing paths : preserves P (first_existing paths).
Proof.
  induction paths as [|p rest IH]; simpl.
  - apply preserves_ret.
  - apply preserves_bind; [apply preserves_path_exists|].
    intros []; [apply preserves_ret | apply IH].
Qed.

End RegistryUntouched.

Create HintDb preserves.

#[local] Hint Resolve preserves_ret preserves_raise preserves_gets preserves_uuid4
  preserves_print preserves_file_save preserves_path_rename preserves_path_unlink
  preserves_subprocess_run preserves_zip_open preserves_zip_write
  preserves_pdf2docx_convert preserves_path_exists preserves_status_contains
  preserves_status_get preserves_getitem preserves_as_path preserves_zip_arcname
  preserves_first_existing : preserves.

(** Breaks a computation into its statements, one goal per primitive. *)
Ltac preserves_steps :=
  repeat first
    [ solve [auto with preserves]
    | apply preserves_bind; [|intros ?]
    | apply preserves_try; [|intros ?]
    | progress (simpl)
    | match goal with
      | |- preserves _ (match ?x with _ => _ end) => destruct x
      | |- preserves _ (let '(_, _) := ?x in _) => destruct x
      end ].

Section GatewayFrame.
Context {E : Env} (P : state → Prop) (HP : registry_only P).

Lemma preserves_find_libreoffice : preserves P find_libreoffice.
Proof. unfold find_libreoffice. preserves_steps; auto with preserves. Qed.

Lemma preserves_convert_with_libreoffice input_file output_dir output_format :
  preserves P (convert_with_libreoffice input_file output_dir output_format).
Proof.
  unfold convert_with_libreoffice.
  apply preserves_bind; [apply preserves_find_libreoffice|intros soffice_path].
  preserves_steps; auto with preserves.
Qed.

End GatewayFrame.

Section HandlersKeepInvariant.
Context {E : Env}.

Lemma preserves_status_set file_id r :
  record_ok r → preserves always_ok (status_set file_id r).
Proof.
  intros Hr s Hs. unfold status_set, modify, always_ok in *. simpl.
  constructor; [|done].
  apply registry_ok_insert; [|done]. by inversion Hs.
Qed.

Lemma preserves_status_set_progress file_id v :
  preserves always_ok (status_set_item file_id "progress" v).
Proof.
  intros s Hs. unfold status_set_item, mbind, M_bind, status_get.
  destruct (conversion_status s !! file_id) as [r|] eqn:Hr; [|done].
  apply preserves_status_set; [|done].
  apply progress_record_ok. inversion Hs as [|? ? Hnow _]. by eapply Hnow.
Qed.

#[local] Hint Resolve always_ok_registry_only preserves_status_set
  preserves_status_set_progress processing_record_ok error_record_ok
  completed_record_ok preserves_convert_with_libreoffice : preserves.

Lemma convert_docx_to_pdf_ok req : preserves always_ok (convert_docx_to_pdf req).
Proof. unfold convert_docx_to_pdf. preserves_steps; auto with preserves. Qed.

Lemma convert_pdf_to_docx_ok req : preserves always_ok (convert_pdf_to_docx req).
Proof. unfold convert_pdf_to_docx. preserves_steps; auto with preserves. Qed.

Lemma convert_batch_file_ok direction file results :
  preserves always_ok (convert_batch_file direction file results).
Proof. unfold convert_batch_file. preserves_steps; auto with preserves. Qed.

Lemma convert_batch_loop_ok direction todo results :
  preserves always_ok (convert_batch_loop direction todo results).
Proof.
  revert results. induction todo as [|file rest IH]; intros results; simpl.
  - auto with preserves.
  - apply preserves_bind; [apply convert_batch_file_ok | intros ?; apply IH].
Qed.

Lemma convert_batch_ok req : preserves always_ok (convert_batch req).
Proof.
  unfold convert_batch. destruct (multi_get "files" (files req)); [|auto with preserves].
  apply preserves_bind; [apply convert_batch_loop_ok | auto with preserves].
Qed.

Lemma download_file_ok file_id : preserves always_ok (download_file file_id).
Proof. unfold download_file. preserves_steps; auto with preserves. Qed.

Lemma download_bulk_loop_ok zip_path file_ids :
  preserves always_ok (download_bulk_loop zip_path file_ids).
Proof.
  induction file_ids as [|file_id rest IH]; simpl; [auto with preserves|].
  apply preserves_bind; [|intros ?; apply IH].
  unfold download_bulk_add. preserves_steps; auto with preserves.
Qed.

Lemma download_bulk_ok file_ids : preserves always_ok (download_bulk file_ids).
Proof.
  unfold download_bulk. destruct file_ids as [|file_id rest]; [auto with preserves|].
  apply preserves_bind; [auto with preserves|intros zip_id].
  apply preserves_bind; [auto with preserves|intros _].
  apply preserves_bind; [apply download_bulk_loop_ok|auto with preserves].
Qed.

Lemma get_status_ok file_id : preserves always_ok (get_status file_id).
Proof. unfold get_status. preserves_steps; auto with preserves. Qed.

Lemma health_check_ok : preserves always_ok health_check.
Proof.
  unfold health_check.
  apply preserves_bind;
    [apply preserves_find_libreoffice; auto with preserves | auto with preserves].
Qed.

End HandlersKeepInvariant.

Lemma reachable_always_ok (s : state) : reachable s → always_ok s.
Proof.
  induction 1 as [on_disk | s on_disk _ IH | E req s _ IH | E req s _ IH
                 | E req s _ IH | file_id s _ IH | E file_ids s _ IH
                 | file_id s _ IH | E s _ IH].
  - unfold always_ok. simpl. constructor; [|constructor]. intros k r. by rewrite lookup_empty.
  - by eapply always_ok_registry_only.
  - by apply convert_docx_to_pdf_ok.
  - by apply convert_pdf_to_docx_ok.
  - by apply convert_batch_ok.
  - by apply download_file_ok.
  - by apply download_bulk_ok.
  - by apply get_status_ok.
  - by apply health_check_ok.
Qed.

(** ** The output location and the status (C1) *)

(** C1. In every state the server can reach, and in every value the registry
    has taken on the way there (between any two statements of a handler), a
    job record has the key [output_file] if and only if its status is
    [completed]; a record whose status is [processing] or [error] has no
    [output_file]. *)
Theorem output_file_iff_completed (s : state) (st : gmap string dict)
    (file_id : string) (r : dict) :
  reachable s →
  st ∈ conversion_status s :: history s →
  st !! file_id = Some r →
  (is_Some (r !! "output_file") ↔ r !! "status" = Some (VStr "completed"))
  ∧ (r !! "status" = Some (VStr "processing") ∨ r !! "status" = Some (VStr "error") →
     r !! "output_file" = None).
Proof.
  intros Hreach Hin Hr.
  assert (Hok : record_ok r).
  { pose proof (reachable_always_ok s Hreach) as Hall.
    unfold always_ok in Hall. rewrite Forall_forall in Hall.
    by eapply (Hall st Hin). }
  split; [exact Hok|].
  intros Hst. destruct (r !! "output_file") as [v|] eqn:Hv; [|done].
  assert (Hc : r !! "status" = Some (VStr "completed")) by (apply Hok; eauto).
  rewrite Hc in Hst. by destruct Hst.
Qed.

Lemma output_file_iff_completed_witness :
  reachable AfterReport.after
  ∧ conversion_status AfterReport.after !! AfterReport.job = Some AfterReport.record
  ∧ (is_Some (AfterReport.record !! "output_file")
     ↔ AfterReport.record !! "status" = Some (VStr "completed")).
Proof.
  assert (Hreach : reachable AfterReport.after).
  { apply (reach_docx_to_pdf Scenario.env_ok). apply reach_start. }
  assert (Hr : conversion_status AfterReport.after !! AfterReport.job
               = Some AfterReport.record).
  { vm_compute. reflexivity. }
  split; [exact Hreach|]. split; [exact Hr|].
  refine (proj1 (output_file_iff_completed AfterReport.after
                   (conversion_status AfterReport.after)
                   AfterReport.job AfterReport.record Hreach _ Hr)).
  constructor.
Defined.

(** ** Failed conversions (C2, C9) *)

(** C2. A batch whose only document LibreOffice fails to convert answers with
    the inline error [Conversion failed], and the job created for the
    document is still [processing] when the handler has returned. The
    single-file endpoint marks the same failure as [error]; it leaves the job
    [processing] too when LibreOffice is not installed. *)
Theorem batch_failure_stays_processing :
  FailedBatch.run.1
    = Return (JsonResults [batch_error "report.docx" "Conversion failed"])
  ∧ conversion_status FailedBatch.run.2 !! FailedBatch.job = Some processing_record
  ∧ conversion_status FailedBatch.run_single.2 !! FailedBatch.job
    = Some (error_record "Conversion failed")
  ∧ FailedBatch.run_not_installed.1
    = Return (Json (error_body (exn_str libreoffice_not_found)) 500)
  ∧ conversion_status FailedBatch.run_not_installed.2 !! FailedBatch.job
    = Some (<["progress" := VInt 30]> processing_record).
Proof. split_and!; vm_compute; reflexivity. Qed.

(** C9. When LibreOffice fails on the document sent to the single-file
    endpoint, the job ends as [error] and the staged upload is still on disk
    when the handler has returned; the batch leaves it there as well. When
    the same document is converted, the staged upload is gone. *)
Theorem failed_conversion_keeps_staged_input :
  FailedBatch.run_single.1 = Return (Json (error_body "Conversion failed") 500)
  ∧ conversion_status FailedBatch.run_single.2 !! FailedBatch.job
    = Some (error_record "Conversion failed")
  ∧ (path_exists FailedBatch.staged FailedBatch.run_single.2).1 = Return true
  ∧ (path_exists FailedBatch.staged FailedBatch.run.2).1 = Return true
  ∧ (path_exists FailedBatch.staged AfterReport.after).1 = Return false.
Proof. split_and!; vm_compute; reflexivity. Qed.

(** ** Results of a computation *)

Lemma yields_ret {A} (a : A) (Q : A → Prop) : Q a → yields (mret a) Q.
Proof. by intros Ha s. Qed.

Lemma yields_bind {A B} (m : M A) (f : A → M B) (Q : B → Prop) :
  (∀ a, yields (f a) Q) → yields (m ≫= f) Q.
Proof.
  intros Hf s. unfold mbind, M_bind.
  destruct (m s) as [[a|e] s']; simpl; [apply Hf | done].
Qed.

Lemma returns_ret {A} (a : A) (Q : A → Prop) : Q a → returns (mret a) Q.
Proof. intros Ha s. by exists a. Qed.

Lemma returns_try {A} (body : M A) (h : exn → M A) (Q : A → Prop) :
  yields body Q → (∀ e, returns (h e) Q) → returns (try_except body h) Q.
Proof.
  intros Hbody Hh s. unfold try_except. specialize (Hbody s).
  destruct (body s) as [[a|e] s']; simpl in *.
  - by exists a.
  - apply Hh.
Qed.

Lemma returns_bind {A B} (m : M A) (f : A → M B) (P : A → Prop) (Q : B → Prop) :
  returns m P → (∀ a, P a → returns (f a) Q) → returns (m ≫= f) Q.
Proof.
  intros Hm Hf s. destruct (Hm s) as (a & Ha & HP).
  unfold mbind, M_bind. destruct (m s) as [o s']; simpl in *; subst o.
  by apply Hf.
Qed.

(** ** The batch result (C3) *)

Section BatchResult.
Context {E : Env}.

Lemma convert_batch_file_named direction file results :
  filename file ≠ "" →
  returns (convert_batch_file direction file results)
    (λ results', ∃ d, results' = (results ++ [d])%list ∧ batch_entry_for file d).
Proof.
  intros Hname. unfold convert_batch_file, batch_entry_for.
  destruct (String.eqb_spec (filename file) "") as [Heq|_]; [done|].
  case_match.
  - apply returns_ret; cbv beta. eexists. split; [done|]. right. by eexists.
  - apply returns_try.
    + repeat (apply yields_bind; intros ?).
      match goal with |- yields (match ?x with _ => _ end) _ => destruct x end;
        repeat (apply yields_bind; intros ?); apply yields_ret; cbv beta;
        (eexists; split; [done|]); [left|right]; eauto.
    + intros e. apply returns_ret; cbv beta. eexists. split; [done|]. right. by eexists.
Qed.

Lemma convert_batch_file_unnamed direction file results :
  filename file = "" →
  returns (convert_batch_file direction file results) (λ results', results' = results).
Proof.
  intros Hname. unfold convert_batch_file. rewrite Hname. simpl.
  by apply returns_ret.
Qed.

Lemma convert_batch_loop_entries direction todo results :
  returns (convert_batch_loop direction todo results)
    (λ final, ∃ new, final = (results ++ new)%list
                    ∧ Forall2 batch_entry_for (named todo) new).
Proof.
  revert results. induction todo as [|file rest IH]; intros results; simpl.
  - apply returns_ret; cbv beta. exists []. split; [by rewrite app_nil_r | constructor].
  - destruct (decide (filename file = "")) as [Hempty|Hname].
    + eapply returns_bind; [by apply convert_batch_file_unnamed|].
      intros ? ->. intros s. destruct (IH results s) as (final & Hrun & new & -> & Hnew).
      exists (results ++ new)%list. split; [done|]. exists new. split; [done|].
      unfold named. by rewrite filter_cons_False by (by intros ?).
    + eapply returns_bind; [by apply convert_batch_file_named|].
      intros ? (d & -> & Hd) s.
      destruct (IH (results ++ [d])%list s) as (final & Hrun & new & -> & Hnew).
      eexists. split; [done|]. exists (d :: new). split.
      * by rewrite <- app_assoc.
      * unfold named. rewrite filter_cons_True by done. by constructor.
Qed.

End BatchResult.

(** C3, as the code has it. The batch handler never raises. When the request
    has parts under [files], it answers with a list that has exactly one
    entry for each such part whose file name is not empty, in the order of
    the parts; each entry is the metadata of the job or an inline error with
    a reason, and carries the part's file name. Parts with an empty file
    name get no entry. *)
Theorem batch_results_follow_named_inputs {E : Env} (req : request) (s : state) :
  match multi_get "files" (files req) with
  | None => (convert_batch req s).1 = Return (Json (error_body "No files provided") 400)
  | Some _ =>
      ∃ results,
        (convert_batch req s).1 = Return (JsonResults results)
        ∧ Forall2 batch_entry_for (named (multi_getlist "files" (files req))) results
  end.
Proof.
  unfold convert_batch. destruct (multi_get "files" (files req)) as [first|]; [|done].
  set (direction := default "docx-to-pdf" (multi_get "direction" (form req))).
  destruct (convert_batch_loop_entries direction (multi_getlist "files" (files req)) [] s)
    as (final & Hrun & new & -> & Hnew).
  exists new. split; [|done].
  unfold mbind, M_bind.
  destruct (convert_batch_loop direction _ [] s) as [o s']. simpl in Hrun. by subst o.
Qed.

(** C3 fails as stated: three files are submitted, the answer has two
    entries. *)
Lemma batch_skips_unnamed_part :
  length (multi_getlist "files" (files MixedBatch.req)) = 3%nat
  ∧ MixedBatch.run.1
    = Return (JsonResults [ batch_success "a.docx" (Scenario.uuid_at 0) "a.pdf";
                            batch_error "b.txt" "Invalid file type" ]).
Proof. split_and!; vm_compute; reflexivity. Qed.

(** ** Suffixes of paths *)

Lemma chars_app (a b : string) : PyStr.chars (a ++ b) = (PyStr.chars a ++ PyStr.chars b)%list.
Proof. induction a as [|c a IH]; simpl; [done|]. unfold PyStr.chars in *. simpl. by rewrite IH. Qed.

Lemma prefixb_app (p l : list ascii) : PyStr.prefixb p (p ++ l) = true.
Proof.
  induction p as [|a p IH]; simpl; [done|].
  by rewrite Ascii.eqb_refl, IH.
Qed.

Lemma prefixb_app_l (p l l' : list ascii) :
  PyStr.prefixb p l = true → PyStr.prefixb p (l ++ l') = true.
Proof.
  revert l. induction p as [|a p IH]; intros [|b l]; simpl; try done.
  intros [Hab Hp]%andb_prop. by rewrite Hab, IH.
Qed.

Lemma prefixb_app_l_false (p l l' : list ascii) :
  (length p ≤ length l)%nat →
  PyStr.prefixb p l = false → PyStr.prefixb p (l ++ l') = false.
Proof.
  revert l. induction p as [|a p IH]; intros [|b l]; simpl; try done; try lia.
  intros Hlen. destruct (Ascii.eqb a b); simpl; [|done]. apply IH. lia.
Qed.

Lemma endswith_app (a suffix : string) : PyStr.endswith (a ++ suffix) suffix = true.
Proof. unfold PyStr.endswith. rewrite chars_app, rev_app_distr. apply prefixb_app. Qed.

Lemma endswith_app_r (a b suffix : string) :
  PyStr.endswith b suffix = true → PyStr.endswith (a ++ b) suffix = true.
Proof.
  unfold PyStr.endswith. rewrite chars_app, rev_app_distr. apply prefixb_app_l.
Qed.

Lemma length_chars (s : string) : length (PyStr.chars s) = String.length s.
Proof. unfold PyStr.chars. induction s as [|c s IH]; simpl; [done | by rewrite IH]. Qed.

Lemma length_append (a b : string) :
  String.length (a ++ b) = (String.length a + String.length b)%nat.
Proof. by rewrite <- !length_chars, chars_app, length_app. Qed.

Lemma endswith_app_r_false (a b suffix : string) :
  (String.length suffix ≤ String.length b)%nat →
  PyStr.endswith b suffix = false → PyStr.endswith (a ++ b) suffix = false.
Proof.
  unfold PyStr.endswith. rewrite chars_app, rev_app_distr. intros Hlen.
  apply prefixb_app_l_false. by rewrite !length_rev, !length_chars.
Qed.

Lemma converted_name_final (file_id stem ext : string) :
  ext = "pdf" ∨ ext = "docx" →
  converted_name (PyPath.join CONVERTED_FOLDER (file_id ++ "_" ++ stem ++ "." ++ ext)) = true.
Proof.
  intros Hext. unfold converted_name, PyPath.join.
  destruct Hext as [-> | ->].
  - apply orb_true_intro. left. do 4 apply endswith_app_r.
    apply (endswith_app stem ".pdf").
  - apply orb_true_intro. right. do 4 apply endswith_app_r.
    apply (endswith_app stem ".docx").
Qed.

Lemma converted_name_pdf (file_id stem : string) :
  converted_name (PyPath.join CONVERTED_FOLDER (file_id ++ "_" ++ stem ++ ".pdf")) = true.
Proof. apply (converted_name_final file_id stem "pdf"). by left. Qed.

Lemma converted_name_docx (file_id stem : string) :
  converted_name (PyPath.join CONVERTED_FOLDER (file_id ++ "_" ++ stem ++ ".docx")) = true.
Proof. apply (converted_name_final file_id stem "docx"). by right. Qed.

Lemma converted_name_zip (zip_id : string) :
  converted_name (PyPath.join CONVERTED_FOLDER (zip_id ++ "_converted_files.zip")) = false.
Proof.
  unfold converted_name, PyPath.join. apply orb_false_intro.
  - apply endswith_app_r_false; [rewrite !length_append; simpl; lia|].
    apply endswith_app_r_false; [rewrite !length_append; simpl; lia|].
    apply endswith_app_r_false; [simpl; lia | done].
  - apply endswith_app_r_false; [rewrite !length_append; simpl; lia|].
    apply endswith_app_r_false; [rewrite !length_append; simpl; lia|].
    apply endswith_app_r_false; [simpl; lia | done].
Qed.

(** ** What a job record looks like *)

Lemma job_shape_readable r : job_shape r → readable r.
Proof.
  intros (st & Hst & Hc). exists st. split; [done|].
  intros Hcompleted. destruct (Hc Hcompleted) as (out & name & ? & ? & _). eauto.
Qed.

Lemma registry_shaped_registry_only : registry_only registry_shaped.
Proof. intros s s' Hst _. unfold registry_shaped. by rewrite Hst. Qed.

Lemma processing_record_shape : job_shape processing_record.
Proof. exists (VStr "processing"). split; [by simplify_map_eq | done]. Qed.

Lemma error_record_shape message : job_shape (error_record message).
Proof. exists (VStr "error"). split; [by simplify_map_eq | done]. Qed.

Lemma completed_record_shape output_file original_name :
  converted_name output_file = true →
  job_shape (completed_record output_file original_name).
Proof.
  intros Hname. exists (VStr "completed"). split; [by simplify_map_eq|].
  intros _. exists output_file, original_name. by simplify_map_eq.
Qed.

Lemma progress_record_shape (r : dict) (v : pyval) :
  job_shape r → job_shape (<["progress" := v]> r).
Proof.
  intros (st & Hst & Hc). exists st. rewrite lookup_insert_ne by done.
  split; [done|]. intros Hcompleted.
  destruct (Hc Hcompleted) as (out & name & ? & ? & ?). exists out, name.
  by rewrite !lookup_insert_ne.
Qed.

Section HandlersKeepShape.
Context {E : Env}.

Lemma shaped_status_set file_id r :
  job_shape r → preserves registry_shaped (status_set file_id r).
Proof.
  intros Hr s Hs k r'. unfold status_set, modify. simpl.
  rewrite lookup_insert. case_decide; [by intros [= <-] | apply Hs].
Qed.

Lemma shaped_status_set_progress file_id v :
  preserves registry_shaped (status_set_item file_id "progress" v).
Proof.
  intros s Hs. unfold status_set_item, mbind, M_bind, status_get.
  destruct (conversion_status s !! file_id) as [r|] eqn:Hr; [|done].
  apply shaped_status_set; [|done]. apply progress_record_shape. by eapply Hs.
Qed.

#[local] Hint Resolve registry_shaped_registry_only shaped_status_set
  shaped_status_set_progress processing_record_shape error_record_shape
  completed_record_shape converted_name_pdf converted_name_docx
  preserves_convert_with_libreoffice : preserves.

Lemma convert_docx_to_pdf_shaped req : preserves registry_shaped (convert_docx_to_pdf req).
Proof. unfold convert_docx_to_pdf. preserves_steps; auto 6 with preserves. Qed.

Lemma convert_pdf_to_docx_shaped req : preserves registry_shaped (convert_pdf_to_docx req).
Proof. unfold convert_pdf_to_docx. preserves_steps; auto 6 with preserves. Qed.

Lemma convert_batch_file_shaped direction file results :
  preserves registry_shaped (convert_batch_file direction file results).
Proof.
  unfold convert_batch_file. preserves_steps; auto 6 with preserves.
  all: apply shaped_status_set, completed_record_shape, converted_name_final;
    case_match; auto.
Qed.

Lemma convert_batch_shaped req : preserves registry_shaped (convert_batch req).
Proof.
  unfold convert_batch. destruct (multi_get "files" (files req)); [|auto with preserves].
  apply preserves_bind; [|auto with preserves].
  generalize (@nil dict). induction (multi_getlist "files" (files req)) as [|file rest IH];
    intros results; simpl; [auto with preserves|].
  apply preserves_bind; [apply convert_batch_file_shaped | intros ?; apply IH].
Qed.

Lemma download_file_shaped file_id : preserves registry_shaped (download_file file_id).
Proof. unfold download_file. preserves_steps; auto with preserves. Qed.

Lemma download_bulk_shaped file_ids : preserves registry_shaped (download_bulk file_ids).
Proof.
  unfold download_bulk. destruct file_ids as [|file_id rest]; [auto with preserves|].
  apply preserves_bind; [auto with preserves|intros zip_id].
  apply preserves_bind; [auto with preserves|intros _].
  apply preserves_bind; [|auto with preserves].
  induction (file_id :: rest) as [|k ks IH]; simpl; [auto with preserves|].
  apply preserves_bind; [|intros ?; apply IH].
  unfold download_bulk_add. preserves_steps; auto with preserves.
Qed.

Lemma get_status_shaped file_id : preserves registry_shaped (get_status file_id).
Proof. unfold get_status. preserves_steps; auto with preserves. Qed.

Lemma health_check_shaped : preserves registry_shaped health_check.
Proof.
  unfold health_check.
  apply preserves_bind;
    [apply preserves_find_libreoffice; auto with preserves | auto with preserves].
Qed.

End HandlersKeepShape.

Lemma reachable_shaped (s : state) : reachable s → registry_shaped s.
Proof.
  induction 1 as [on_disk | s on_disk _ IH | E req s _ IH | E req s _ IH
                 | E req s _ IH | file_id s _ IH | E file_ids s _ IH
                 | file_id s _ IH | E s _ IH].
  - intros k r. simpl. by rewrite lookup_empty.
  - by eapply registry_shaped_registry_only.
  - by apply convert_docx_to_pdf_shaped.
  - by apply convert_pdf_to_docx_shaped.
  - by apply convert_batch_shaped.
  - by apply download_file_shaped.
  - by apply download_bulk_shaped.
  - by apply get_status_shaped.
  - by apply health_check_shaped.
Qed.

(** ** Archive assembly *)

Lemma status_contains_eq file_id (s : state) :
  status_contains file_id s
  = (Return (bool_decide (is_Some (conversion_status s !! file_id))), s).
Proof. reflexivity. Qed.

Lemma status_get_some file_id r (s : state) :
  conversion_status s !! file_id = Some r → status_get file_id s = (Return r, s).
Proof. intros Hr. unfold status_get. by rewrite Hr. Qed.

Lemma getitem_some (d : dict) k v (s : state) :
  d !! k = Some v → getitem d k s = (Return v, s).
Proof. intros Hv. unfold getitem. by rewrite Hv. Qed.

Lemma path_exists_eq p (s : state) :
  path_exists p s = (Return (bool_decide (p ∈ fs s)), s).
Proof. reflexivity. Qed.

Lemma download_bulk_add_spec zip_path file_id (s : state) :
  readable_id (conversion_status s) file_id →
  download_bulk_add zip_path file_id s
  = (Return (), add_member zip_path (archive_member (conversion_status s) (fs s) file_id) s).
Proof.
  unfold readable_id, archive_member, download_bulk_add, mbind, M_bind.
  rewrite status_contains_eq.
  destruct (conversion_status s !! file_id) as [r|] eqn:Hr; [|done].
  intros (st & Hst & Hc).
  rewrite bool_decide_eq_true_2 by eauto. cbn [negb].
  rewrite (status_get_some _ r) by done.
  rewrite (getitem_some _ _ st) by done.
  destruct (decide (st = VStr "completed")) as [->|Hne].
  - rewrite !bool_decide_eq_true_2 by done. cbn [negb].
    destruct (Hc eq_refl) as (out & name & Hout & Hname).
    rewrite (getitem_some _ _ (VStr out)) by done. cbn [as_path mret M_ret].
    rewrite Hout, Hname, path_exists_eq.
    destruct (bool_decide (out ∈ fs s)) eqn:Hdisk; cbn [negb]; [|done].
    rewrite (getitem_some _ _ (VStr name)) by done. cbn [zip_arcname mret M_ret].
    unfold zip_write. by rewrite Hdisk.
  - rewrite (bool_decide_eq_false_2 (st = _)) by done.
    rewrite (bool_decide_eq_false_2 (_ = Some _)) by congruence. done.
Qed.

Lemma add_member_registry zip_path m s :
  conversion_status (add_member zip_path m s) = conversion_status s
  ∧ fs (add_member zip_path m s) = fs s.
Proof. by destruct m. Qed.

Lemma download_bulk_loop_spec zip_path file_ids old (s : state) :
  Forall (readable_id (conversion_status s)) file_ids →
  archives s !! zip_path = Some old →
  ∃ s', download_bulk_loop zip_path file_ids s = (Return (), s')
        ∧ conversion_status s' = conversion_status s
        ∧ fs s' = fs s
        ∧ archives s' !! zip_path
          = Some (old ++ members (conversion_status s) (fs s) file_ids)%list.
Proof.
  revert s old. induction file_ids as [|file_id rest IH]; intros s old Hall Hold; simpl.
  - exists s. by rewrite app_nil_r.
  - inversion Hall as [|? ? Hfirst Hrest]; subst.
    unfold mbind, M_bind. rewrite download_bulk_add_spec by done.
    set (m := archive_member (conversion_status s) (fs s) file_id).
    destruct (add_member_registry zip_path m s) as [Hst Hfs].
    destruct (IH (add_member zip_path m s) (old ++ option_list m)%list)
      as (s' & Hrun & Hst' & Hfs' & Harch).
    { by rewrite Hst. }
    { destruct m as [entry|]; simpl.
      - by rewrite lookup_insert_eq, Hold.
      - by rewrite app_nil_r. }
    exists s'. split; [done|]. rewrite Hst', Hfs', Hst, Hfs.
    split; [done|]. split; [done|].
    rewrite Harch, Hst, Hfs. unfold members. simpl. fold m.
    destruct m as [entry|]; simpl; by rewrite <- app_assoc.
Qed.

Section BulkDownload.
Context {E : Env}.

Lemma download_bulk_spec file_id rest (s : state) :
  Forall (readable_id (conversion_status s)) (file_id :: rest) →
  ∃ s', download_bulk (file_id :: rest) s
        = (Return (SendFile (bulk_zip_path s) (VStr "converted_files.zip")), s')
        ∧ conversion_status s' = conversion_status s
        ∧ archives s' !! bulk_zip_path s
          = Some (members (conversion_status s) ({[bulk_zip_path s]} ∪ fs s)
                    (file_id :: rest)).
Proof.
  intros Hall. unfold download_bulk, mbind, M_bind, uuid4.
  fold (bulk_zip_path s). unfold zip_open, modify.
  set (s1 := with_archives _ _).
  destruct (download_bulk_loop_spec (bulk_zip_path s) (file_id :: rest) [] s1)
    as (s' & Hrun & Hst & Hfs & Harch).
  { done. }
  { subst s1. simpl. by rewrite lookup_insert_eq. }
  rewrite Hrun. exists s'. split; [done|]. split; [by rewrite Hst|].
  by rewrite Harch.
Qed.

End BulkDownload.

(** ** Bulk download (C4, C5) *)

Lemma members_none (st : gmap string dict) (on_disk : gset string) file_ids :
  (∀ file_id, file_id ∈ file_ids → archive_member st on_disk file_id = None) →
  members st on_disk file_ids = [].
Proof.
  induction file_ids as [|file_id rest IH]; intros Hnone; [done|].
  unfold members. simpl. rewrite Hnone by left.
  apply IH. intros k Hk. apply Hnone. by right.
Qed.

Lemma archive_member_some st on_disk file_id name out :
  archive_member st on_disk file_id = Some (name, out) →
  ∃ r, st !! file_id = Some r
       ∧ r !! "status" = Some (VStr "completed")
       ∧ r !! "output_file" = Some (VStr out)
       ∧ out ∈ on_disk.
Proof.
  unfold archive_member. destruct (st !! file_id) as [r|]; [|done].
  case_bool_decide as Hst; [|done].
  destruct (r !! "output_file") as [[| | |o]|] eqn:Hout; try done.
  destruct (r !! "original_name") as [[| | |n]|]; try done.
  case_bool_decide as Hdisk; [|done].
  intros [= <- <-]. by exists r.
Qed.

(** C4, as the code has it. From a state the server can reach, a bulk
    download whose identifiers all fail to resolve to a completed job with an
    existing output file does not fail: it answers with the archive
    [converted_files.zip], and the archive has no entry. The handler answers
    with an error (400) only when the list of identifiers is empty. *)
Theorem bulk_download_without_valid_jobs {E : Env} (file_ids : list string) (s : state) :
  reachable s →
  (∀ file_id, file_id ∈ file_ids → ¬ resolves s file_id) →
  match file_ids with
  | [] => download_bulk file_ids s = (Return (Json (error_body "No files specified") 400), s)
  | _ :: _ =>
      ∃ s', download_bulk file_ids s
            = (Return (SendFile (bulk_zip_path s) (VStr "converted_files.zip")), s')
            ∧ archives s' !! bulk_zip_path s = Some []
  end.
Proof.
  intros Hreach Hnone. destruct file_ids as [|file_id rest]; [done|].
  pose proof (reachable_shaped s Hreach) as Hshape.
  destruct (download_bulk_spec file_id rest s) as (s' & Hrun & _ & Harch).
  { apply Forall_forall. intros k _. unfold readable_id.
    destruct (conversion_status s !! k) as [r|] eqn:Hr; [|done].
    by eapply job_shape_readable, Hshape. }
  exists s'. split; [done|]. rewrite Harch. f_equal.
  apply members_none. intros k Hk.
  destruct (archive_member _ _ k) as [[name out]|] eqn:Hm; [|done].
  exfalso. apply archive_member_some in Hm as (r & Hr & Hst & Hout & Hdisk).
  apply elem_of_union in Hdisk as [Hzip%elem_of_singleton | Hdisk].
  - destruct (Hshape k r Hr) as (st & Hst' & Hc).
    rewrite Hst in Hst'. injection Hst' as <-.
    destruct (Hc eq_refl) as (out' & name' & Hout' & _ & Hconv).
    rewrite Hout in Hout'. injection Hout' as <-.
    rewrite Hzip in Hconv. unfold bulk_zip_path in Hconv.
    by rewrite converted_name_zip in Hconv.
  - apply (Hnone k Hk). by exists r, out.
Qed.

Lemma bulk_download_without_valid_jobs_witness :
  reachable Downloads.two_jobs
  ∧ (∃ s', Downloads.none_valid
           = (Return (SendFile Downloads.zip_path (VStr "converted_files.zip")), s')
           ∧ archives s' !! Downloads.zip_path = Some []).
Proof.
  assert (Hreach : reachable Downloads.two_jobs).
  { apply (reach_docx_to_pdf Scenario.env_fail).
    apply (reach_docx_to_pdf Scenario.env_ok). apply reach_start. }
  split; [exact Hreach|].
  refine (bulk_download_without_valid_jobs (E := Scenario.env_ok)
            [Downloads.unknown_id; Downloads.failed_id] Downloads.two_jobs Hreach _).
  intros k Hk (r & out & Hr & Hst & _).
  apply elem_of_cons in Hk as [-> | Hk].
  - vm_compute in Hr. discriminate Hr.
  - apply list_elem_of_singleton in Hk as ->.
    vm_compute in Hr. injection Hr as <-. vm_compute in Hst. discriminate Hst.
Defined.

(** C4 fails as stated: neither identifier resolves, and the answer is an
    empty archive, without error. *)
Lemma bulk_download_empty_archive :
  Downloads.none_valid.1
  = Return (SendFile Downloads.zip_path (VStr "converted_files.zip"))
  ∧ archives Downloads.none_valid.2 !! Downloads.zip_path = Some []
  ∧ conversion_status Downloads.two_jobs !! Downloads.unknown_id = None
  ∧ conversion_status Downloads.two_jobs !! Downloads.failed_id
    = Some (error_record "Conversion failed").
Proof. split_and!; vm_compute; reflexivity. Qed.

(** C5. A bulk download is asked for three identifiers, in any order: one of
    a completed job whose output file exists, one that is unknown, and one of
    a failed job. The handler answers with the archive, without error, and
    the archive has exactly one entry: the output file of the completed job
    under its display name. *)
Theorem bulk_download_skips_invalid_ids {E : Env} (s : state)
    (completed unknown failed : string) (file_ids : list string)
    (rc rf : dict) (out name : string) :
  conversion_status s !! completed = Some rc →
  rc !! "status" = Some (VStr "completed") →
  rc !! "output_file" = Some (VStr out) →
  rc !! "original_name" = Some (VStr name) →
  out ∈ fs s →
  conversion_status s !! unknown = None →
  conversion_status s !! failed = Some rf →
  rf !! "status" = Some (VStr "error") →
  file_ids ≡ₚ [completed; unknown; failed] →
  ∃ s', download_bulk file_ids s
        = (Return (SendFile (bulk_zip_path s) (VStr "converted_files.zip")), s')
        ∧ archives s' !! bulk_zip_path s = Some [(name, out)].
Proof.
  intros Hrc Hst Hout Hname Hdisk Hunknown Hrf Hfailed Hperm.
  assert (Hreadable : Forall (readable_id (conversion_status s)) file_ids).
  { rewrite Hperm. unfold readable_id.
    repeat constructor; rewrite ?Hrc, ?Hunknown, ?Hrf; [|done|].
    - exists (VStr "completed"). split; [done|]. intros _. by exists out, name.
    - exists (VStr "error"). split; [done|]. intros [=]. }
  destruct file_ids as [|file_id rest].
  { by apply Permutation_nil_l in Hperm. }
  destruct (download_bulk_spec file_id rest s Hreadable) as (s' & Hrun & _ & Harch).
  exists s'. split; [done|]. rewrite Harch. f_equal.
  apply Permutation_singleton_r. unfold members. rewrite Hperm. simpl.
  unfold archive_member. rewrite Hrc, Hunknown, Hrf, Hst, Hout, Hname, Hfailed.
  rewrite (bool_decide_eq_true_2 (Some (VStr "completed") = _)) by done.
  rewrite (bool_decide_eq_true_2 (out ∈ _)) by set_solver.
  rewrite (bool_decide_eq_false_2 (Some (VStr "error") = _)) by done.
  done.
Qed.

Lemma bulk_download_skips_invalid_ids_witness :
  ∃ s', @download_bulk Scenario.env_ok
          [Downloads.unknown_id; Downloads.completed_id; Downloads.failed_id]
          Downloads.two_jobs
        = (Return (SendFile Downloads.zip_path (VStr "converted_files.zip")), s')
        ∧ archives s' !! Downloads.zip_path
          = Some [("report.pdf", "converted/" ++ Downloads.completed_id ++ "_report.pdf")].
Proof.
  refine (bulk_download_skips_invalid_ids (E := Scenario.env_ok) Downloads.two_jobs
            Downloads.completed_id Downloads.unknown_id Downloads.failed_id
            [Downloads.unknown_id; Downloads.completed_id; Downloads.failed_id]
            Downloads.completed_rec (error_record "Conversion failed")
            ("converted/" ++ Downloads.completed_id ++ "_report.pdf") "report.pdf"
            _ _ _ _ _ _ _ _ _).
  - vm_compute. reflexivity.
  - vm_compute. reflexivity.
  - vm_compute. reflexivity.
  - vm_compute. reflexivity.
  - apply (bool_decide_unpack _). vm_compute. exact I.
  - vm_compute. reflexivity.
  - vm_compute. reflexivity.
  - vm_compute. reflexivity.
  - apply perm_swap.
Defined.

(** ** Single download (C10) *)

(** C10. When the job is known and completed and the output file its record
    names is not on disk, the download answers 404 [File not found] and
    changes nothing: the very answer it gives for an unknown identifier. *)
Theorem download_missing_artifact_is_404 (s : state) (file_id : string)
    (r : dict) (out : string) :
  conversion_status s !! file_id = Some r →
  r !! "status" = Some (VStr "completed") →
  r !! "output_file" = Some (VStr out) →
  out ∉ fs s →
  download_file file_id s = (Return (Json (error_body "File not found") 404), s)
  ∧ ∀ unknown, conversion_status s !! unknown = None →
               download_file unknown s = download_file file_id s.
Proof.
  intros Hr Hst Hout Hdisk.
  assert (Hknown : download_file file_id s
                   = (Return (Json (error_body "File not found") 404), s)).
  { unfold download_file, mbind, M_bind. rewrite status_contains_eq.
    rewrite bool_decide_eq_true_2 by eauto. cbn [negb].
    rewrite (status_get_some _ r) by done.
    rewrite (getitem_some _ _ (VStr "completed")) by done.
    rewrite bool_decide_eq_true_2 by done. cbn [negb].
    rewrite (getitem_some _ _ (VStr out)) by done. cbn [as_path mret M_ret].
    rewrite path_exists_eq. by rewrite bool_decide_eq_false_2. }
  split; [done|]. intros unknown Hunknown. rewrite Hknown.
  unfold download_file, mbind, M_bind. rewrite status_contains_eq, Hunknown.
  by rewrite bool_decide_eq_false_2 by (by intros [? ?]).
Qed.

Lemma download_missing_artifact_is_404_witness :
  download_file Downloads.completed_id Downloads.artifact_gone
  = (Return (Json (error_body "File not found") 404), Downloads.artifact_gone).
Proof.
  refine (proj1 (download_missing_artifact_is_404 Downloads.artifact_gone
                   Downloads.completed_id Downloads.completed_rec
                   ("converted/" ++ Downloads.completed_id ++ "_report.pdf") _ _ _ _)).
  - vm_compute. reflexivity.
  - vm_compute. reflexivity.
  - vm_compute. reflexivity.
  - apply not_elem_of_empty.
Defined.

(** ** Status polling (C8) *)

(** C8. Any number of status queries for a known job, in particular one that
    is completed or failed, all answer with the job's record as it is, and
    leave the whole state, the registry included, as it was. *)
Theorem status_polling_is_idempotent (n : nat) (s : state) (file_id : string) (r : dict) :
  conversion_status s !! file_id = Some r →
  poll n file_id s = (Return (replicate n (Json r 200)), s).
Proof.
  intros Hr.
  assert (Hone : get_status file_id s = (Return (Json r 200), s)).
  { unfold get_status, mbind, M_bind. rewrite status_contains_eq.
    rewrite bool_decide_eq_true_2 by eauto. cbn [negb].
    by rewrite (status_get_some _ r). }
  induction n as [|n IH]; [done|].
  cbn [poll replicate]. unfold mbind, M_bind in *. by rewrite Hone, IH.
Qed.

Lemma status_polling_is_idempotent_witness :
  poll 3 Downloads.failed_id Downloads.two_jobs
  = (Return (replicate 3 (Json (error_record "Conversion failed") 200)), Downloads.two_jobs).
Proof.
  apply (status_polling_is_idempotent 3 Downloads.two_jobs Downloads.failed_id
           (error_record "Conversion failed")).
  vm_compute. reflexivity.
Defined.

(** ** The gateway's failure modes (C6) *)

Section GatewayContract.
Context {E : Env}.

Lemma first_existing_returns paths (s : state) :
  ∃ found, first_existing paths s = (Return found, s).
Proof.
  induction paths as [|p rest IH]; simpl; [by eexists|].
  unfold mbind, M_bind. rewrite path_exists_eq.
  destruct (bool_decide (p ∈ fs s)); [by eexists | done].
Qed.

Lemma find_libreoffice_returns (s : state) :
  ∃ soffice_path s1, find_libreoffice s = (Return soffice_path, s1).
Proof.
  unfold find_libreoffice, mbind, M_bind.
  destruct (first_existing_returns possible_paths s) as (found & ->).
  destruct found as [p|]; [by eexists _, _|].
  unfold try_except.
  destruct (subprocess_run _ _ s) as [[[[rc out] err]|e] s1]; [|by eexists _, _].
  destruct (rc =? 0)%Z; by eexists _, _.
Qed.

End GatewayContract.

(** C6, as the code has it. The gateway raises [FileNotFoundError] when
    LibreOffice is not found. When the process runs for more than 60 seconds,
    and when it cannot be started, exits with a nonzero code or leaves no
    output file of the expected name, the gateway returns [None]: the caller
    sees one failure outcome for a timeout and for a failed conversion. *)
Theorem gateway_reports_two_failure_outcomes {E : Env}
    (input_file output_dir output_format : string) (s : state) :
  (convert_with_libreoffice input_file output_dir output_format s).1
  = gateway_outcome (contract_result input_file output_dir output_format s)
  ∧ gateway_outcome ConversionTimeout = gateway_outcome ConversionFailed.
Proof.
  split; [|done].
  unfold convert_with_libreoffice, contract_result, mbind, M_bind.
  destruct (find_libreoffice_returns s) as (soffice_path & s1 & ->).
  destruct (falsy_path soffice_path); [done|].
  unfold try_except, subprocess_run.
  set (p := exec _ _ _).
  destruct (spawn_error p) as [e|].
  - simpl. unfold mbind, M_bind, print, modify.
    destruct e as [[] msg]; done.
  - rewrite N.ltb_antisym. destruct (running_time p <=? 60)%N; simpl; [|done].
    destruct (returncode p =? 0)%Z; simpl; [|done].
    unfold mbind, M_bind, path_exists, gets. simpl.
    by destruct (bool_decide _).
Qed.

(** C6 fails as stated: a timeout and a failed conversion reach the caller
    as the same value. *)
Lemma timeout_looks_like_failure :
  contract_result (E := Scenario.env_slow) Gateway.staged CONVERTED_FOLDER "pdf"
    Scenario.installed = ConversionTimeout
  ∧ contract_result (E := Scenario.env_fail) Gateway.staged CONVERTED_FOLDER "pdf"
      Scenario.installed = ConversionFailed
  ∧ Gateway.slow.1 = Return None
  ∧ Gateway.failing.1 = Return None.
Proof. split_and!; vm_compute; reflexivity. Qed.

(** ** The display name of a converted document (C7) *)

Lemma convert_with_libreoffice_registry {E : Env} input_file output_dir output_format s :
  conversion_status (convert_with_libreoffice input_file output_dir output_format s).2
  = conversion_status s.
Proof.
  apply (preserves_convert_with_libreoffice (λ s', conversion_status s' = conversion_status s));
    [|done].
  intros s1 s2 Hst _ Hs1. by rewrite Hst.
Qed.

Lemma staged_is_not_converted (a b : string) :
  PyPath.join CONVERTED_FOLDER a ≠ PyPath.join UPLOAD_FOLDER b.
Proof. unfold PyPath.join, CONVERTED_FOLDER, UPLOAD_FOLDER. simpl. intros [=]. Qed.

Lemma bind_return_inv {A B} (m : M A) (f : A → M B) (s s' : state) (b : B) :
  (m ≫= f) s = (Return b, s') →
  ∃ a s1, m s = (Return a, s1) ∧ f a s1 = (Return b, s').
Proof.
  unfold mbind, M_bind. destruct (m s) as [[a|e] s1]; [|intros [=]].
  intros Hf. by exists a, s1.
Qed.

Section FileSystemSteps.
Context {E : Env}.

Lemma file_save_return_inv p (s s' : state) :
  file_save p s = (Return (), s') → s' = with_fs ({[p]} ∪ fs s) (next_tick s).
Proof. unfold file_save. destruct (save_error _ _); intros [=]. done. Qed.

Lemma path_rename_return_inv src dst (s s' : state) :
  path_rename src dst s = (Return (), s') →
  src ∈ fs s ∧ s' = with_fs ({[dst]} ∪ fs s ∖ {[src]}) s.
Proof. unfold path_rename. case_bool_decide; intros [=]. done. Qed.

Lemma path_unlink_return_inv p (s s' : state) :
  path_unlink p s = (Return (), s') → p ∈ fs s ∧ s' = with_fs (fs s ∖ {[p]}) s.
Proof. unfold path_unlink. case_bool_decide; intros [=]. done. Qed.

End FileSystemSteps.

(** C7, as the code has it. When the single-file DOCX-to-PDF conversion of
    an upload named F succeeds, the display name in the answer, in the job
    record and offered by the download is the stem of the sanitised name
    [secure_filename(F)] followed by [.pdf]. It is the stem of F followed by
    [.pdf] whenever sanitising leaves F as it is. *)
Theorem display_name_is_sanitised_stem {E : Env} (req : request) (s : state) (body : dict) :
  (convert_docx_to_pdf req s).1 = Return (Json body 200) →
  ∃ file file_id out,
    multi_get "file" (files req) = Some file
    ∧ body = completed_body file_id (PyPath.stem (secure_filename (filename file)) ++ ".pdf")
    ∧ conversion_status (convert_docx_to_pdf req s).2 !! file_id
      = Some (completed_record out
                (PyPath.stem (secure_filename (filename file)) ++ ".pdf"))
    ∧ download_file file_id (convert_docx_to_pdf req s).2
      = (Return (SendFile out
                   (VStr (PyPath.stem (secure_filename (filename file)) ++ ".pdf"))),
         (convert_docx_to_pdf req s).2)
    ∧ (secure_filename (filename file) = filename file →
       PyPath.stem (secure_filename (filename file)) ++ ".pdf"
       = PyPath.stem (filename file) ++ ".pdf").
Proof.
  unfold convert_docx_to_pdf.
  destruct (multi_get "file" (files req)) as [file|]; [|intros [=]].
  destruct (String.eqb (filename file) ""); [intros [=]|].
  destruct (negb _); [intros [=]|].
  unfold try_except.
  match goal with |- context [?body s] => destruct (body s) as [[resp|e] s'] eqn:Hrun end.
  2:{ intros [=]. }
  cbn [fst snd]. intros [= ->].
  apply bind_return_inv in Hrun as (file_id & s1 & [= <- <-] & Hrun).
  apply bind_return_inv in Hrun as ([] & s2 & [= <-] & Hrun).
  apply bind_return_inv in Hrun as ([] & s3 & ->%file_save_return_inv & Hrun).
  apply bind_return_inv in Hrun as ([] & s4 & Hprogress & Hrun).
  apply bind_return_inv in Hrun as (output_path & s5 & Hconvert & Hrun).
  destruct output_path as [output_path|].
  2:{ apply bind_return_inv in Hrun as ([] & s6 & _ & [=]). }
  apply bind_return_inv in Hrun as ([] & s6 & [Hout ->]%path_rename_return_inv & Hrun).
  apply bind_return_inv in Hrun as ([] & s7 & [= <-] & Hrun).
  apply bind_return_inv in Hrun as ([] & s8 & [_ ->]%path_unlink_return_inv & Hrun).
  injection Hrun as <- <-.
  set (display := PyPath.stem (secure_filename (filename file)) ++ ".pdf").
  set (final := PyPath.join CONVERTED_FOLDER
                  (uuid4_str (tick s) ++ "_" ++
                   PyPath.stem (secure_filename (filename file)) ++ ".pdf")).
  cbn [fst snd].
  match goal with |- context [download_file _ ?st] => set (final_state := st) end.
  exists file, (uuid4_str (tick s)), final.
  assert (Hrecord : conversion_status final_state !! uuid4_str (tick s)
                    = Some (completed_record final display)).
  { subst final_state. simpl. apply lookup_insert_eq. }
  assert (Hdisk : final ∈ fs final_state).
  { subst final_state. simpl. apply elem_of_difference. split; [set_solver|].
    rewrite elem_of_singleton. apply staged_is_not_converted. }
  split; [done|]. split; [done|]. split; [apply Hrecord|]. split; [|by intros ->].
  unfold download_file, mbind, M_bind. rewrite status_contains_eq.
  rewrite bool_decide_eq_true_2 by (rewrite Hrecord; eauto). cbn [negb].
  rewrite (status_get_some _ (completed_record final display)) by apply Hrecord.
  rewrite (getitem_some _ _ (VStr "completed")) by by simplify_map_eq.
  rewrite bool_decide_eq_true_2 by done. cbn [negb].
  rewrite (getitem_some _ _ (VStr final)) by by simplify_map_eq.
  cbn [as_path mret M_ret]. rewrite path_exists_eq.
  rewrite bool_decide_eq_true_2 by done.
  cbn [negb]. by rewrite (getitem_some _ _ (VStr display)) by by simplify_map_eq.
Qed.

Lemma display_name_is_sanitised_stem_witness :
  ∃ file file_id out,
    multi_get "file" (files (Scenario.single "My report.docx")) = Some file
    ∧ completed_body SpacedName.job "My_report.pdf"
      = completed_body file_id
          (PyPath.stem (@secure_filename Scenario.env_ok (filename file)) ++ ".pdf")
    ∧ conversion_status
        (@convert_docx_to_pdf Scenario.env_ok (Scenario.single "My report.docx")
           Scenario.installed).2 !! file_id
      = Some (completed_record out
                (PyPath.stem (@secure_filename Scenario.env_ok (filename file)) ++ ".pdf"))
    ∧ download_file file_id
        (@convert_docx_to_pdf Scenario.env_ok (Scenario.single "My report.docx")
           Scenario.installed).2
      = (Return (SendFile out
                   (VStr (PyPath.stem (@secure_filename Scenario.env_ok (filename file))
                          ++ ".pdf"))),
         (@convert_docx_to_pdf Scenario.env_ok (Scenario.single "My report.docx")
            Scenario.installed).2)
    ∧ (@secure_filename Scenario.env_ok (filename file) = filename file →
       PyPath.stem (@secure_filename Scenario.env_ok (filename file)) ++ ".pdf"
       = PyPath.stem (filename file) ++ ".pdf").
Proof.
  refine (display_name_is_sanitised_stem (E := Scenario.env_ok)
            (Scenario.single "My report.docx") Scenario.installed
            (completed_body SpacedName.job "My_report.pdf") _).
  vm_compute. reflexivity.
Defined.

(** C7 fails as stated: the upload is named [My report.docx], its stem is
    [My report], and the display name recorded and offered at download is
    [My_report.pdf]. *)
Lemma display_name_differs_from_upload_stem :
  SpacedName.run.1 = Return (Json (completed_body SpacedName.job "My_report.pdf") 200)
  ∧ download_file SpacedName.job SpacedName.run.2
    = (Return (SendFile SpacedName.output (VStr "My_report.pdf")), SpacedName.run.2)
  ∧ PyPath.stem "My report.docx" ++ ".pdf" = "My report.pdf".
Proof. split_and!; vm_compute; reflexivity. Qed.

(** * Further properties of the code *)

(** ** The extension check [allowed_file] *)

Lemma rfind_chars_none (c : ascii) (l : list ascii) :
  PyStr.rfind_chars c l = None → c ∉ l.
Proof.
  induction l as [|a l IH]; simpl; [intros _; apply not_elem_of_nil|].
  destruct (PyStr.rfind_chars c l); [done|].
  destruct (Ascii.eqb_spec a c) as [->|Hne]; [done|].
  intros _ [->|Hin]%elem_of_cons; [done | by apply IH].
Qed.

Lemma rfind_chars_last (c : ascii) (pre suf : list ascii) :
  c ∉ suf → PyStr.rfind_chars c (pre ++ c :: suf) = Some (length pre).
Proof.
  intros Hsuf.
  assert (Hnone : PyStr.rfind_chars c suf = None).
  { induction suf as [|a suf IH]; simpl; [done|].
    rewrite IH by (intros Hin; apply Hsuf; by right).
    destruct (Ascii.eqb_spec a c) as [->|Hne]; [|done].
    exfalso. apply Hsuf. by left. }
  induction pre as [|a pre IH]; simpl.
  - by rewrite Hnone, Ascii.eqb_refl.
  - by rewrite IH.
Qed.

Lemma rfind_chars_some (c : ascii) (l : list ascii) (i : nat) :
  PyStr.rfind_chars c l = Some i →
  ∃ pre suf, l = (pre ++ c :: suf)%list ∧ (c ∉ suf) ∧ i = length pre.
Proof.
  revert i. induction l as [|a l IH]; intros i; simpl; [done|].
  destruct (PyStr.rfind_chars c l) as [j|] eqn:Hl.
  - intros [= <-]. destruct (IH j eq_refl) as (pre & suf & -> & Hsuf & ->).
    by exists (a :: pre), suf.
  - destruct (Ascii.eqb_spec a c) as [->|Hne]; [|done].
    intros [= <-]. exists [], l. split; [done|]. split; [|done].
    by apply rfind_chars_none.
Qed.

Lemma prefixb_true (p l : list ascii) :
  PyStr.prefixb p l = true ↔ ∃ k, l = (p ++ k)%list.
Proof.
  revert l. induction p as [|a p IH]; intros l; simpl.
  - split; [intros _; by exists l | done].
  - destruct l as [|b l]; [split; [done | by intros [k [=]]]|].
    rewrite andb_true_iff, IH. split.
    + intros [Hab [k ->]]. apply Ascii.eqb_eq in Hab as ->. by exists k.
    + intros [k [= -> ->]]. split; [apply Ascii.eqb_refl | by exists k].
Qed.

Lemma chars_of_chars (l : list ascii) : PyStr.chars (PyStr.of_chars l) = l.
Proof. apply list_ascii_of_string_of_list_ascii. Qed.

Lemma of_chars_chars (s : string) : PyStr.of_chars (PyStr.chars s) = s.
Proof. apply string_of_list_ascii_of_string. Qed.

Lemma lower_char_dot (a : ascii) : PyStr.lower_char a = "."%char ↔ a = "."%char.
Proof.
  split; [|by intros ->].
  unfold PyStr.lower_char. destruct (PyStr.is_upper a) eqn:Hup; [|done].
  unfold PyStr.is_upper, PyStr.code in Hup.
  apply andb_prop in Hup as [Hlo%Nat.leb_le Hhi%Nat.leb_le].
  intros Hdot. apply (f_equal nat_of_ascii) in Hdot.
  rewrite nat_ascii_embedding in Hdot by (unfold PyStr.code; lia).
  replace (nat_of_ascii "."%char) with 46%nat in Hdot by reflexivity.
  unfold PyStr.code in Hdot. lia.
Qed.

(** The name ends, in lower case, with a dot and the extension [ext] (which
    has no dot): what both sides of the comparison below come to. *)
Lemma ends_with_extension (l ext : list ascii) :
  "."%char ∉ ext →
  (∃ pre suf, l = (pre ++ "."%char :: suf)%list ∧ ("."%char ∉ suf)
              ∧ map PyStr.lower_char suf = ext)
  ↔ (∃ k, rev (map PyStr.lower_char l) = (rev ("."%char :: ext) ++ k)%list).
Proof.
  intros Hext. split.
  - intros (pre & suf & -> & _ & <-). exists (rev (map PyStr.lower_char pre)).
    rewrite map_app, rev_app_distr. simpl. by rewrite <- !app_assoc.
  - intros [k Hk]. apply (f_equal (@rev ascii)) in Hk.
    rewrite rev_involutive, rev_app_distr, rev_involutive in Hk.
    revert Hk. generalize (rev k). clear k. intros k Hk.
    assert (Hsplit : ∃ pre d suf, l = (pre ++ d :: suf)%list
                       ∧ PyStr.lower_char d = "."%char
                       ∧ map PyStr.lower_char suf = ext).
    { revert k Hk. induction l as [|a l IH]; intros k Hk.
      - by destruct k.
      - destruct k as [|b k]; simpl in Hk.
        + injection Hk as Ha Hl. by exists [], a, l.
        + injection Hk as _ Hl. destruct (IH k Hl) as (pre & d & suf & -> & ? & ?).
          by exists (a :: pre), d, suf. }
    destruct Hsplit as (pre & d & suf & -> & ->%lower_char_dot & Hsuf).
    exists pre, suf. split; [done|]. split; [|done].
    intros Hin. apply Hext. rewrite <- Hsuf.
    apply list_elem_of_In, in_map_iff. exists "."%char. split; [done|].
    by apply list_elem_of_In.
Qed.

Lemma endswith_lower_extension (f : string) (ext : list ascii) :
  "."%char ∉ ext →
  PyStr.endswith (PyStr.lower f) (PyStr.of_chars ("."%char :: ext)) = true
  ↔ ∃ pre suf, PyStr.chars f = (pre ++ "."%char :: suf)%list ∧ ("."%char ∉ suf)
               ∧ map PyStr.lower_char suf = ext.
Proof.
  intros Hext. unfold PyStr.endswith, PyStr.lower.
  rewrite !chars_of_chars, prefixb_true. symmetry. by apply ends_with_extension.
Qed.

Lemma drop_past_dot (pre suf : list ascii) :
  drop (S (length pre)) (pre ++ "."%char :: suf) = suf.
Proof.
  rewrite drop_app_ge by lia.
  by replace (S (length pre) - length pre)%nat with 1%nat by lia.
Qed.

Lemma allowed_file_extension (f : string) :
  allowed_file f = true
  ↔ ∃ pre suf, PyStr.chars f = (pre ++ "."%char :: suf)%list ∧ ("."%char ∉ suf)
               ∧ (map PyStr.lower_char suf = PyStr.chars "docx"
                  ∨ map PyStr.lower_char suf = PyStr.chars "pdf").
Proof.
  unfold allowed_file, PyStr.rfind, PyStr.slice_from, PyStr.lower, ALLOWED_EXTENSIONS.
  assert (Hmem : ∀ suf,
            PyStr.of_chars (map PyStr.lower_char (PyStr.chars (PyStr.of_chars suf)))
              ∈ ({[ "docx"; "pdf" ]} : gset string)
            ↔ map PyStr.lower_char suf = PyStr.chars "docx"
              ∨ map PyStr.lower_char suf = PyStr.chars "pdf").
  { intros suf. rewrite chars_of_chars, elem_of_union, !elem_of_singleton.
    split; intros [H|H]; [left|right|left|right];
      first [ by rewrite <- H, chars_of_chars | by rewrite H ]. }
  split.
  - destruct (PyStr.rfind_chars "." (PyStr.chars f)) as [i|] eqn:Hfind; [|done].
    apply rfind_chars_some in Hfind as (pre & suf & Hl & Hsuf & ->).
    rewrite bool_decide_eq_true, Hl, drop_past_dot, Hmem. intros Hext.
    by exists pre, suf.
  - intros (pre & suf & Hl & Hsuf & Hext).
    rewrite Hl, rfind_chars_last by done.
    by rewrite bool_decide_eq_true, drop_past_dot, Hmem.
Qed.

(** X1. [allowed_file] accepts exactly the names the two single-file
    handlers accept between them: those that end, in lower case, in [.docx]
    or in [.pdf]. *)
Theorem allowed_file_is_either_extension (f : string) :
  allowed_file f
  = PyStr.endswith (PyStr.lower f) ".docx" || PyStr.endswith (PyStr.lower f) ".pdf".
Proof.
  apply eq_true_iff_eq. rewrite orb_true_iff, allowed_file_extension.
  change ".docx" with (PyStr.of_chars ("."%char :: PyStr.chars "docx")).
  change ".pdf" with (PyStr.of_chars ("."%char :: PyStr.chars "pdf")).
  rewrite !endswith_lower_extension by (apply (bool_decide_unpack _); vm_compute; exact I).
  split.
  - intros (pre & suf & Hl & Hsuf & [Hext|Hext]); [left|right]; by exists pre, suf.
  - intros [(pre & suf & Hl & Hsuf & Hext)|(pre & suf & Hl & Hsuf & Hext)];
      exists pre, suf; auto.
Qed.

(** ** Finding LibreOffice *)

Section FindLibreOffice.
Context {E : Env}.

Lemma first_existing_first (before after : list string) (p : string) (s : state) :
  Forall (λ q, q ∉ fs s) before → p ∈ fs s →
  first_existing (before ++ p :: after) s = (Return (Some p), s).
Proof.
  intros Hbefore Hp. induction Hbefore as [|q before Hq _ IH]; simpl.
  - unfold mbind, M_bind. rewrite path_exists_eq. by rewrite bool_decide_eq_true_2.
  - unfold mbind, M_bind. rewrite path_exists_eq. by rewrite bool_decide_eq_false_2.
Qed.

Lemma first_existing_none (paths : list string) (s : state) :
  Forall (λ q, q ∉ fs s) paths → first_existing paths s = (Return None, s).
Proof.
  induction 1 as [|q paths Hq _ IH]; simpl; [done|].
  unfold mbind, M_bind. rewrite path_exists_eq. by rewrite bool_decide_eq_false_2.
Qed.

End FindLibreOffice.

(** X2. The three known install locations are tried in the order of the
    list: the first of them that exists is the answer, and then no process
    is run and nothing changes. *)
Theorem find_libreoffice_prefers_known_paths {E : Env} (s : state)
    (before after : list string) (p : string) :
  possible_paths = (before ++ p :: after)%list →
  Forall (λ q, q ∉ fs s) before →
  p ∈ fs s →
  find_libreoffice s = (Return (Some p), s).
Proof.
  intros Hpaths Hbefore Hp. unfold find_libreoffice, mbind, M_bind.
  by rewrite Hpaths, first_existing_first.
Qed.

Lemma find_libreoffice_prefers_known_paths_witness :
  @find_libreoffice Scenario.env_ok Scenario.installed
  = (Return (Some "/usr/local/bin/soffice"), Scenario.installed).
Proof.
  apply (find_libreoffice_prefers_known_paths (E := Scenario.env_ok) Scenario.installed
           ["/Applications/LibreOffice.app/Contents/MacOS/soffice"]
           ["/opt/homebrew/bin/soffice"] "/usr/local/bin/soffice").
  - reflexivity.
  - constructor; [|constructor]. apply (bool_decide_unpack _). vm_compute. exact I.
  - apply (bool_decide_unpack _). vm_compute. exact I.
Defined.

Lemma find_libreoffice_without_known_path {E : Env} (s : state) :
  Forall (λ q, q ∉ fs s) possible_paths →
  (find_libreoffice s).1
  = Return (match spawn_error (exec (tick s) ["which"; "soffice"] (fs s)) with
            | Some _ => None
            | None =>
                if (returncode (exec (tick s) ["which"; "soffice"] (fs s)) =? 0)%Z
                then Some (PyStr.strip (proc_stdout (exec (tick s) ["which"; "soffice"] (fs s))))
                else None
            end).
Proof.
  intros Hnone. unfold find_libreoffice, mbind, M_bind.
  rewrite first_existing_none by done.
  unfold try_except, subprocess_run.
  destruct (spawn_error _); [done|]. simpl.
  by destruct (_ =? _)%Z.
Qed.

(** X3. When none of the known locations exists, the answer comes from
    [which soffice], waited for without a time limit: its output without the
    surrounding blanks when it exits with 0, and [None] when it exits with
    another code or cannot be started. No exception leaves the function. *)
Theorem find_libreoffice_asks_which {E : Env} (s : state) :
  Forall (λ q, q ∉ fs s) possible_paths →
  (find_libreoffice s).1
  = Return (match spawn_error (exec (tick s) ["which"; "soffice"] (fs s)) with
            | Some _ => None
            | None =>
                if (returncode (exec (tick s) ["which"; "soffice"] (fs s)) =? 0)%Z
                then Some (PyStr.strip (proc_stdout (exec (tick s) ["which"; "soffice"] (fs s))))
                else None
            end).
Proof. apply find_libreoffice_without_known_path. Qed.

Lemma find_libreoffice_asks_which_witness :
  (@find_libreoffice Probe.on_path Scenario.not_installed).1
  = Return (Some "/usr/bin/soffice").
Proof.
  refine (find_libreoffice_asks_which (E := Probe.on_path) Scenario.not_installed _).
  repeat constructor; apply not_elem_of_empty.
Defined.

Lemma find_libreoffice_frame {E : Env} (s : state) :
  ∃ found s', find_libreoffice s = (Return found, s')
              ∧ conversion_status s' = conversion_status s
              ∧ history s' = history s
              ∧ stdout s' = stdout s
              ∧ archives s' = archives s.
Proof.
  unfold find_libreoffice, mbind, M_bind.
  destruct (first_existing_returns possible_paths s) as (found & ->).
  destruct found as [p|]; [by eexists _, _|].
  unfold try_except, subprocess_run.
  destruct (spawn_error _); [by eexists _, _|]. simpl.
  destruct (_ =? _)%Z; by eexists _, _.
Qed.

(** ** The health endpoint *)

(** X4. The health check never fails: it answers 200 with status
    [healthy] whether or not LibreOffice is found, reports
    [libreoffice_found] as true exactly when it reports a path, and leaves
    the registry, the archives and the output of the program as they were. *)
Theorem health_check_always_healthy {E : Env} (s : state) :
  ∃ body s',
    health_check s = (Return (Json body 200), s')
    ∧ body !! "status" = Some (VStr "healthy")
    ∧ (body !! "libreoffice_found" = Some (VBool true)
       ↔ ∃ p, body !! "libreoffice_path" = Some (VStr p))
    ∧ (body !! "libreoffice_found" = Some (VBool false)
       ↔ body !! "libreoffice_path" = Some VNone)
    ∧ conversion_status s' = conversion_status s
    ∧ archives s' = archives s
    ∧ stdout s' = stdout s.
Proof.
  unfold health_check, mbind, M_bind.
  destruct (find_libreoffice_frame s) as (found & s' & -> & Hst & _ & Hout & Harch).
  eexists _, s'. split; [done|]. split; [by simplify_map_eq|].
  split; [|split]; [| |done].
  - rewrite lookup_insert_ne, lookup_insert_eq by done.
    rewrite lookup_insert_ne, lookup_insert_ne, lookup_singleton_eq by done.
    destruct found as [p|]; simpl.
    + split; [by exists p | done].
    + split; [done | by intros [p [=]]].
  - rewrite lookup_insert_ne, lookup_insert_eq by done.
    rewrite lookup_insert_ne, lookup_insert_ne, lookup_singleton_eq by done.
    by destruct found as [p|].
Qed.

(** X5. When no known location exists and [which soffice] exits with 0
    without printing a path, the health check reports LibreOffice as found,
    with an empty path, while the gateway raises its not-found error. *)
Theorem health_check_finds_blank_path {E : Env} (s : state)
    (input_file output_dir output_format : string) :
  Forall (λ q, q ∉ fs s) possible_paths →
  spawn_error (exec (tick s) ["which"; "soffice"] (fs s)) = None →
  returncode (exec (tick s) ["which"; "soffice"] (fs s)) = 0%Z →
  PyStr.strip (proc_stdout (exec (tick s) ["which"; "soffice"] (fs s))) = "" →
  (health_check s).1
  = Return (Json {[ "status" := VStr "healthy";
                    "libreoffice_found" := VBool true;
                    "libreoffice_path" := VStr "" ]} 200)
  ∧ (convert_with_libreoffice input_file output_dir output_format s).1
    = Raise libreoffice_not_found.
Proof.
  intros Hnone Hspawn Hrc Hout.
  pose proof (find_libreoffice_without_known_path s Hnone) as Hfind.
  rewrite Hspawn, Hrc, Hout in Hfind. simpl in Hfind.
  unfold health_check, convert_with_libreoffice, mbind, M_bind.
  destruct (find_libreoffice s) as [o s']. simpl in Hfind. subst o. done.
Qed.

Lemma health_check_finds_blank_path_witness :
  (@health_check Probe.blank Scenario.not_installed).1
  = Return (Json {[ "status" := VStr "healthy";
                    "libreoffice_found" := VBool true;
                    "libreoffice_path" := VStr "" ]} 200)
  ∧ (@convert_with_libreoffice Probe.blank Gateway.staged CONVERTED_FOLDER "pdf"
       Scenario.not_installed).1
    = Raise libreoffice_not_found.
Proof.
  refine (health_check_finds_blank_path (E := Probe.blank) Scenario.not_installed
            Gateway.staged CONVERTED_FOLDER "pdf" _ _ _ _).
  - repeat constructor; apply not_elem_of_empty.
  - reflexivity.
  - reflexivity.
  - reflexivity.
Defined.

(** ** What the gateway returns *)

(** X6. A path returned by the gateway is the expected one, the stem of the
    input with the target extension in the output directory, and that file
    exists when the gateway returns. The gateway never touches the
    registry. *)
Theorem gateway_result_exists {E : Env} (input_file output_dir output_format : string)
    (s s' : state) (p : string) :
  convert_with_libreoffice input_file output_dir output_format s = (Return (Some p), s') →
  p = PyPath.join output_dir (PyPath.stem input_file ++ "." ++ output_format)
  ∧ p ∈ fs s'
  ∧ conversion_status s' = conversion_status s.
Proof.
  intros Hrun.
  pose proof (convert_with_libreoffice_registry input_file output_dir output_format s) as Hst.
  rewrite Hrun in Hst. simpl in Hst.
  revert Hrun. unfold convert_with_libreoffice, mbind, M_bind.
  destruct (find_libreoffice s) as [[soffice_path|e] s1]; [|intros [=]].
  destruct (falsy_path soffice_path); [intros [=]|].
  unfold try_except, subprocess_run.
  set (pr := exec _ _ _).
  destruct (spawn_error pr) as [e|].
  { unfold mbind, M_bind, print, modify. destruct (exn_cls e); intros [=]. }
  destruct (running_time pr <=? 60)%N; [|intros [=]].
  destruct (negb _); [intros [=]|].
  unfold mbind, M_bind, path_exists, gets.
  cbn [fst snd]. case_bool_decide as Hdisk; [|intros [=]].
  intros [= <- <-]. done.
Qed.

Lemma gateway_result_exists_witness :
  "converted/" ++ Scenario.uuid_at 0 ++ "_report.pdf"
  = PyPath.join CONVERTED_FOLDER (PyPath.stem Gateway.staged ++ "." ++ "pdf")
  ∧ "converted/" ++ Scenario.uuid_at 0 ++ "_report.pdf"
    ∈ fs (@convert_with_libreoffice Scenario.env_ok Gateway.staged CONVERTED_FOLDER "pdf"
            Scenario.installed).2
  ∧ conversion_status
      (@convert_with_libreoffice Scenario.env_ok Gateway.staged CONVERTED_FOLDER "pdf"
         Scenario.installed).2
    = conversion_status Scenario.installed.
Proof.
  apply (gateway_result_exists (E := Scenario.env_ok) Gateway.staged CONVERTED_FOLDER "pdf"
           Scenario.installed).
  vm_compute. reflexivity.
Defined.

(** ** Jobs are never removed *)

#[local] Hint Resolve preserves_ret preserves_raise preserves_gets preserves_uuid4
  preserves_print preserves_file_save preserves_path_rename preserves_path_unlink
  preserves_subprocess_run preserves_zip_open preserves_zip_write
  preserves_pdf2docx_convert preserves_path_exists preserves_status_contains
  preserves_status_get preserves_getitem preserves_as_path preserves_zip_arcname
  preserves_first_existing preserves_find_libreoffice
  preserves_convert_with_libreoffice : preserves.

Lemma known_registry_only (k : string) : registry_only (known k).
Proof. intros s s' Hst _. unfold known. by rewrite Hst. Qed.

Section HandlersKeepJobs.
Context {E : Env} (k : string).

Lemma known_status_set file_id r : preserves (known k) (status_set file_id r).
Proof.
  intros s Hs. unfold known, status_set, modify in *. simpl.
  rewrite lookup_insert. by case_decide.
Qed.

Lemma known_status_set_item file_id key v :
  preserves (known k) (status_set_item file_id key v).
Proof.
  intros s Hs. unfold status_set_item, mbind, M_bind, status_get.
  destruct (conversion_status s !! file_id); [|done].
  by apply known_status_set.
Qed.

#[local] Hint Resolve known_registry_only known_status_set known_status_set_item
  : preserves.

Lemma convert_docx_to_pdf_known req : preserves (known k) (convert_docx_to_pdf req).
Proof. unfold convert_docx_to_pdf. preserves_steps; auto with preserves. Qed.

Lemma convert_pdf_to_docx_known req : preserves (known k) (convert_pdf_to_docx req).
Proof. unfold convert_pdf_to_docx. preserves_steps; auto with preserves. Qed.

Lemma convert_batch_known req : preserves (known k) (convert_batch req).
Proof.
  unfold convert_batch. destruct (multi_get "files" (files req)); [|auto with preserves].
  apply preserves_bind; [|auto with preserves].
  generalize (@nil dict). induction (multi_getlist "files" (files req)) as [|file rest IH];
    intros results; simpl; [auto with preserves|].
  apply preserves_bind; [|intros ?; apply IH].
  unfold convert_batch_file. preserves_steps; auto with preserves.
Qed.

Lemma download_file_known file_id : preserves (known k) (download_file file_id).
Proof. unfold download_file. preserves_steps; auto with preserves. Qed.

Lemma download_bulk_known file_ids : preserves (known k) (download_bulk file_ids).
Proof.
  unfold download_bulk. destruct file_ids as [|file_id rest]; [auto with preserves|].
  apply preserves_bind; [auto with preserves|intros zip_id].
  apply preserves_bind; [auto with preserves|intros _].
  apply preserves_bind; [|auto with preserves].
  induction (file_id :: rest) as [|j js IH]; simpl; [auto with preserves|].
  apply preserves_bind; [|intros ?; apply IH].
  unfold download_bulk_add. preserves_steps; auto with preserves.
Qed.

Lemma get_status_known file_id : preserves (known k) (get_status file_id).
Proof. unfold get_status. preserves_steps; auto with preserves. Qed.

Lemma health_check_known : preserves (known k) health_check.
Proof. unfold health_check. preserves_steps; auto with preserves. Qed.

End HandlersKeepJobs.

(** X7. No request removes a job: an identifier the registry holds before a
    request is served is still there afterwards, whatever the request and
    whatever the environment does. *)
Theorem jobs_are_never_removed (k : string) (s s' : state) :
  serves s s' →
  is_Some (conversion_status s !! k) →
  is_Some (conversion_status s' !! k).
Proof.
  intros Hserve Hk. destruct Hserve.
  - by apply (convert_docx_to_pdf_known k).
  - by apply (convert_pdf_to_docx_known k).
  - by apply (convert_batch_known k).
  - by apply (download_file_known k).
  - by apply (download_bulk_known k).
  - by apply (get_status_known k).
  - by apply (health_check_known k).
Qed.

Lemma jobs_are_never_removed_witness :
  is_Some (conversion_status Downloads.two_jobs !! Downloads.completed_id).
Proof.
  apply (jobs_are_never_removed Downloads.completed_id AfterReport.after Downloads.two_jobs).
  - apply (serve_docx_to_pdf Scenario.env_fail).
  - apply (bool_decide_unpack _). vm_compute. exact I.
Defined.

(** ** Jobs of other requests *)

Section OtherJobs.
Context {E : Env} (k : string) (Hfresh : ∀ n, uuid4_str n ≠ k) (r0 : option dict).

Lemma holds_at_registry_only : registry_only (holds_at k r0).
Proof. intros s s' Hst _. unfold holds_at. by rewrite Hst. Qed.

Lemma holds_at_status_set n r : preserves (holds_at k r0) (status_set (uuid4_str n) r).
Proof.
  intros s Hs. unfold holds_at, status_set, modify in *. simpl.
  by rewrite lookup_insert_ne.
Qed.

Lemma holds_at_status_set_item n key v :
  preserves (holds_at k r0) (status_set_item (uuid4_str n) key v).
Proof.
  intros s Hs. unfold status_set_item, mbind, M_bind, status_get.
  destruct (conversion_status s !! uuid4_str n); [|done].
  by apply holds_at_status_set.
Qed.

Lemma holds_at_uuid4_bind {A} (f : string → M A) :
  (∀ n, preserves (holds_at k r0) (f (uuid4_str n))) → preserves (holds_at k r0) (uuid4 ≫= f).
Proof. intros Hf s Hs. apply (Hf (tick s) (next_tick s)). exact Hs. Qed.

#[local] Hint Resolve holds_at_registry_only holds_at_status_set
  holds_at_status_set_item : preserves.

Lemma convert_docx_to_pdf_other req : preserves (holds_at k r0) (convert_docx_to_pdf req).
Proof.
  unfold convert_docx_to_pdf. repeat case_match; auto with preserves.
  apply preserves_try; [|intros e; preserves_steps].
  apply holds_at_uuid4_bind. intros n. preserves_steps.
Qed.

Lemma convert_pdf_to_docx_other req : preserves (holds_at k r0) (convert_pdf_to_docx req).
Proof.
  unfold convert_pdf_to_docx. repeat case_match; auto with preserves.
  apply preserves_try; [|intros e; preserves_steps].
  apply holds_at_uuid4_bind. intros n. preserves_steps.
Qed.

Lemma convert_batch_file_other direction file results :
  preserves (holds_at k r0) (convert_batch_file direction file results).
Proof.
  unfold convert_batch_file. repeat case_match; auto with preserves.
  all: apply preserves_try; [|intros e; preserves_steps].
  all: apply holds_at_uuid4_bind; intros n; preserves_steps.
Qed.

Lemma convert_batch_other req : preserves (holds_at k r0) (convert_batch req).
Proof.
  unfold convert_batch. destruct (multi_get "files" (files req)); [|auto with preserves].
  apply preserves_bind; [|auto with preserves].
  generalize (@nil dict). induction (multi_getlist "files" (files req)) as [|file rest IH];
    intros results; simpl; [auto with preserves|].
  apply preserves_bind; [apply convert_batch_file_other | intros ?; apply IH].
Qed.

End OtherJobs.

(** X8. A conversion request touches no job but its own: the record of an
    identifier the generator does not draw is the same after a single-file
    or batch conversion as before, whether the conversion succeeds or
    fails. A completed or failed job therefore keeps its record. *)
Theorem conversions_leave_other_jobs_alone {E : Env} (k : string) (req : request)
    (s : state) :
  (∀ n, uuid4_str n ≠ k) →
  conversion_status (convert_docx_to_pdf req s).2 !! k = conversion_status s !! k
  ∧ conversion_status (convert_pdf_to_docx req s).2 !! k = conversion_status s !! k
  ∧ conversion_status (convert_batch req s).2 !! k = conversion_status s !! k.
Proof.
  intros Hfresh. split_and!.
  - by apply (convert_docx_to_pdf_other k Hfresh (conversion_status s !! k)).
  - by apply (convert_pdf_to_docx_other k Hfresh (conversion_status s !! k)).
  - by apply (convert_batch_other k Hfresh (conversion_status s !! k)).
Qed.

Lemma conversions_leave_other_jobs_alone_witness :
  conversion_status
    (@convert_docx_to_pdf Later.env_later (Scenario.single "notes.docx") AfterReport.after).2
    !! AfterReport.job
  = conversion_status AfterReport.after !! AfterReport.job.
Proof.
  refine (proj1 (conversions_leave_other_jobs_alone (E := Later.env_later) AfterReport.job
                   (Scenario.single "notes.docx") AfterReport.after _)).
  intros n Hn. do 4 (destruct n as [|n]; [vm_compute in Hn; discriminate Hn|]).
  destruct n; vm_compute in Hn; discriminate Hn.
Defined.

(** ** Queries *)

Lemma queries_hold (file_id : string) (s : state) :
  (download_file file_id s).2 = s ∧ (get_status file_id s).2 = s.
Proof.
  assert (Hdownload : preserves (λ s', s' = s) (download_file file_id)).
  { unfold download_file. preserves_steps. }
  assert (Hstatus : preserves (λ s', s' = s) (get_status file_id)).
  { unfold get_status. preserves_steps. }
  split; [exact (Hdownload s eq_refl) | exact (Hstatus s eq_refl)].
Qed.

(** X9. The single download and the status query are read-only: whatever
    they answer, and also when they fail with an exception, the whole state
    (registry, disk, archives, output) is the one they started from. *)
Theorem queries_change_nothing (file_id : string) (s : state) :
  (download_file file_id s).2 = s ∧ (get_status file_id s).2 = s.
Proof. apply queries_hold. Qed.

Lemma download_file_of_member (file_id : string) (s : state) :
  readable_id (conversion_status s) file_id →
  match archive_member (conversion_status s) (fs s) file_id with
  | Some (name, out) => download_file file_id s = (Return (SendFile out (VStr name)), s)
  | None =>
      ∃ msg code,
        download_file file_id s = (Return (Json (error_body msg) code), s)
        ∧ (code = 400%Z
           ↔ ∃ r, conversion_status s !! file_id = Some r
                  ∧ r !! "status" ≠ Some (VStr "completed"))
        ∧ (code = 400%Z ∨ code = 404%Z)
  end.
Proof.
  unfold readable_id, archive_member.
  destruct (conversion_status s !! file_id) as [r|] eqn:Hr.
  2:{ intros _. exists "File not found", 404%Z. split; [|split; [|by right]].
      - unfold download_file, mbind, M_bind. rewrite status_contains_eq, Hr.
        by rewrite bool_decide_eq_false_2 by (by intros [? ?]).
      - split; [done | by intros (r & [=] & _)]. }
  intros (st & Hst & Hc).
  assert (Hstart : download_file file_id s
                   = (if negb (bool_decide (st = VStr "completed"))
                      then mret (Json (error_body "File not ready") 400)
                      else
                        (output_file ← getitem r "output_file" ≫= as_path;
                         found ← path_exists output_file;
                         if negb found then mret (Json (error_body "File not found") 404)
                         else
                           download_name ← getitem r "original_name";
                           mret (SendFile output_file download_name))) s).
  { unfold download_file, mbind, M_bind. rewrite status_contains_eq, Hr.
    rewrite bool_decide_eq_true_2 by eauto. cbn [negb].
    rewrite (status_get_some _ r) by done.
    by rewrite (getitem_some _ _ st). }
  rewrite Hstart. clear Hstart. rewrite Hst.
  destruct (decide (st = VStr "completed")) as [->|Hne].
  - rewrite !bool_decide_eq_true_2 by done. cbn [negb].
    destruct (Hc eq_refl) as (out & name & Hout & Hname).
    rewrite Hout, Hname. unfold mbind, M_bind.
    rewrite (getitem_some _ _ (VStr out)) by done. cbn [as_path mret M_ret].
    rewrite path_exists_eq.
    destruct (bool_decide (out ∈ fs s)) eqn:Hdisk; cbn [negb].
    + by rewrite (getitem_some _ _ (VStr name)).
    + exists "File not found", 404%Z. split; [done|]. split; [|by right].
      split; [done|]. intros (r' & [= <-] & Hr'). done.
  - rewrite (bool_decide_eq_false_2 (st = _)) by done.
    rewrite (bool_decide_eq_false_2 (_ = Some _)) by congruence. cbn [negb].
    exists "File not ready", 400%Z. split; [done|]. split; [|by left].
    split; [|done]. intros _. exists r. split; [done|]. congruence.
Qed.

(** X10. In a state the server can reach the single download never fails
    with an exception, and it agrees with the bulk download on what an
    identifier stands for: it sends the output file under the display name
    exactly when the bulk download would put that file under that name into
    the archive; otherwise it answers 400 when the job is known and not
    completed, and 404 in every other case. The state is not changed. *)
Theorem download_file_agrees_with_archive (file_id : string) (s : state) :
  reachable s →
  match archive_member (conversion_status s) (fs s) file_id with
  | Some (name, out) => download_file file_id s = (Return (SendFile out (VStr name)), s)
  | None =>
      ∃ msg code,
        download_file file_id s = (Return (Json (error_body msg) code), s)
        ∧ (code = 400%Z
           ↔ ∃ r, conversion_status s !! file_id = Some r
                  ∧ r !! "status" ≠ Some (VStr "completed"))
        ∧ (code = 400%Z ∨ code = 404%Z)
  end.
Proof.
  intros Hreach. apply download_file_of_member. unfold readable_id.
  destruct (conversion_status s !! file_id) as [r|] eqn:Hr; [|done].
  by eapply job_shape_readable, (reachable_shaped s Hreach).
Qed.

Lemma download_file_agrees_with_archive_witness :
  download_file Downloads.completed_id Downloads.two_jobs
  = (Return (SendFile ("converted/" ++ Downloads.completed_id ++ "_report.pdf")
               (VStr "report.pdf")),
     Downloads.two_jobs).
Proof.
  refine (download_file_agrees_with_archive Downloads.completed_id Downloads.two_jobs _).
  apply (reach_docx_to_pdf Scenario.env_fail).
  apply (reach_docx_to_pdf Scenario.env_ok). apply reach_start.
Defined.

(** ** The archive of a bulk download *)

Lemma archive_member_ignores_zip {E : Env} (s : state) (file_id : string) :
  registry_shaped s →
  archive_member (conversion_status s) ({[bulk_zip_path s]} ∪ fs s) file_id
  = archive_member (conversion_status s) (fs s) file_id.
Proof.
  intros Hshape. unfold archive_member.
  destruct (conversion_status s !! file_id) as [r|] eqn:Hr; [|done].
  case_bool_decide as Hst; [|done].
  destruct (Hshape file_id r Hr) as (st & Hst' & Hc).
  rewrite Hst in Hst'. injection Hst' as <-.
  destruct (Hc eq_refl) as (out & name & -> & -> & Hconv).
  assert (Hne : out ≠ bulk_zip_path s).
  { intros ->. unfold bulk_zip_path in Hconv. by rewrite converted_name_zip in Hconv. }
  rewrite (bool_decide_ext (out ∈ {[bulk_zip_path s]} ∪ fs s) (out ∈ fs s)); [done|].
  rewrite elem_of_union, elem_of_singleton. tauto.
Qed.

(** X11. From a state the server can reach, a bulk download with at least
    one identifier never fails. It writes one new file, the archive, and
    leaves the registry as it is. The archive has one entry for every
    identifier of the request that resolves to a completed job with an
    existing output file, in the order of the request and as often as the
    identifier is given; every other identifier is skipped. An empty request
    is answered with 400 and changes nothing. *)
Theorem bulk_download_archives_resolvable_jobs {E : Env} (file_ids : list string)
    (s : state) :
  reachable s →
  match file_ids with
  | [] => download_bulk file_ids s = (Return (Json (error_body "No files specified") 400), s)
  | _ :: _ =>
      ∃ s', download_bulk file_ids s
            = (Return (SendFile (bulk_zip_path s) (VStr "converted_files.zip")), s')
            ∧ conversion_status s' = conversion_status s
            ∧ fs s' = {[bulk_zip_path s]} ∪ fs s
            ∧ archives s' !! bulk_zip_path s
              = Some (members (conversion_status s) (fs s) file_ids)
  end.
Proof.
  intros Hreach. destruct file_ids as [|file_id rest]; [done|].
  pose proof (reachable_shaped s Hreach) as Hshape.
  unfold download_bulk, mbind, M_bind, uuid4.
  fold (bulk_zip_path s). unfold zip_open, modify.
  set (s1 := with_archives _ _).
  destruct (download_bulk_loop_spec (bulk_zip_path s) (file_id :: rest) [] s1)
    as (s' & Hrun & Hst & Hfs & Harch).
  { apply Forall_forall. intros k _. unfold readable_id. subst s1. simpl.
    destruct (conversion_status s !! k) as [r|] eqn:Hr; [|done].
    by eapply job_shape_readable, Hshape. }
  { subst s1. simpl. by rewrite lookup_insert_eq. }
  rewrite Hrun. exists s'. split; [done|]. split; [by rewrite Hst|].
  split; [by rewrite Hfs|]. rewrite Harch. f_equal.
  assert (Hmem : ∀ l, members (conversion_status s) ({[bulk_zip_path s]} ∪ fs s) l
                      = members (conversion_status s) (fs s) l).
  { unfold members. induction l as [|k l IH]; [done|].
    cbn [omap list_omap]. rewrite archive_member_ignores_zip by done.
    destruct (archive_member _ _ k); [f_equal|]; exact IH. }
  exact (Hmem _).
Qed.

Lemma bulk_download_archives_resolvable_jobs_witness :
  ∃ s', @download_bulk Scenario.env_ok
          [Downloads.completed_id; Downloads.failed_id; Downloads.completed_id]
          Downloads.two_jobs
        = (Return (SendFile Downloads.zip_path (VStr "converted_files.zip")), s')
        ∧ conversion_status s' = conversion_status Downloads.two_jobs
        ∧ fs s' = {[Downloads.zip_path]} ∪ fs Downloads.two_jobs
        ∧ archives s' !! Downloads.zip_path
          = Some [("report.pdf", "converted/" ++ Downloads.completed_id ++ "_report.pdf");
                  ("report.pdf", "converted/" ++ Downloads.completed_id ++ "_report.pdf")].
Proof.
  refine (bulk_download_archives_resolvable_jobs (E := Scenario.env_ok)
            [Downloads.completed_id; Downloads.failed_id; Downloads.completed_id]
            Downloads.two_jobs _).
  apply (reach_docx_to_pdf Scenario.env_fail).
  apply (reach_docx_to_pdf Scenario.env_ok). apply reach_start.
Defined.

(** ** Single-file conversions: validation *)

(** X12. A single-file request with no part [file], with an unnamed upload
    or with an upload of another extension is answered with 400 and leaves
    the state untouched: no identifier is drawn, no job is created and
    nothing is written to disk. *)
Theorem invalid_upload_creates_no_job {E : Env} (req : request) (s : state) :
  (¬ upload_named req ".docx" →
   ∃ msg, convert_docx_to_pdf req s = (Return (Json (error_body msg) 400), s))
  ∧ (¬ upload_named req ".pdf" →
     ∃ msg, convert_pdf_to_docx req s = (Return (Json (error_body msg) 400), s)).
Proof.
  unfold upload_named, convert_docx_to_pdf, convert_pdf_to_docx.
  split; intros Hinvalid;
    (destruct (multi_get "file" (files req)) as [file|]; [|by eexists]);
    (destruct (String.eqb (filename file) ""); [by eexists|]);
    match goal with |- context [PyStr.endswith ?n ?e] =>
      destruct (PyStr.endswith n e) eqn:Hext end;
    try (by eexists); exfalso; apply Hinvalid; by exists file.
Qed.

Lemma invalid_upload_creates_no_job_witness :
  ∃ msg, @convert_docx_to_pdf Scenario.env_ok (Scenario.single "notes.txt") Scenario.installed
         = (Return (Json (error_body msg) 400), Scenario.installed).
Proof.
  refine (proj1 (invalid_upload_creates_no_job (E := Scenario.env_ok)
                   (Scenario.single "notes.txt") Scenario.installed) _).
  intros (file & Hfile & Hext). injection Hfile as <-. vm_compute in Hext. discriminate Hext.
Defined.

(** ** Single-file conversions: every accepted upload becomes a job *)

Section AcceptedUpload.
Context {E : Env}.

#[local] Hint Resolve known_registry_only known_status_set known_status_set_item
  : preserves.

Lemma registers_job (g : string → M response) (h : exn → M response) (s : state) :
  (∀ file_id, preserves (known file_id) (g file_id)) →
  (∀ file_id e, preserves (known file_id) (h e)) →
  (∀ file_id, yields (g file_id) success_or_error) →
  (∀ e, returns (h e) success_or_error) →
  ∃ r s',
    try_except (file_id ← uuid4; status_set file_id processing_record;; g file_id) h s
    = (Return r, s')
    ∧ success_or_error r
    ∧ known (uuid4_str (tick s)) s'.
Proof.
  intros Hg Hh Hcode Hcode'.
  unfold try_except, mbind, M_bind, uuid4, status_set, modify.
  set (file_id := uuid4_str (tick s)).
  set (s1 := with_status _ _).
  assert (Hknown : known file_id s1).
  { subst s1. unfold known. simpl. rewrite lookup_insert_eq. eauto. }
  pose proof (Hg file_id s1 Hknown) as Hstate.
  pose proof (Hcode file_id s1) as Hout.
  destruct (g file_id s1) as [[r|e] s2]; simpl in *.
  - by exists r, s2.
  - pose proof (Hh file_id e s2 Hstate) as Hstate'.
    destruct (Hcode' e s2) as (r & Hr & Hok).
    destruct (h e s2) as [o s3]. simpl in *. subst o. by exists r, s3.
Qed.

Lemma yields_bind_post {A B} (m : M A) (f : A → M B) (P : A → Prop) (Q : B → Prop) :
  yields m P → (∀ a, P a → yields (f a) Q) → yields (m ≫= f) Q.
Proof.
  intros Hm Hf s. specialize (Hm s). unfold mbind, M_bind.
  destruct (m s) as [[a|e] s']; simpl in *; [by apply Hf | done].
Qed.

Lemma yields_try {A} (body : M A) (h : exn → M A) (Q : A → Prop) :
  yields body Q → (∀ e, yields (h e) Q) → yields (try_except body h) Q.
Proof.
  intros Hbody Hh s. specialize (Hbody s). unfold try_except.
  destruct (body s) as [[a|e] s']; simpl in *; [done | apply Hh].
Qed.

Lemma returns_print_then {A} (line : string) (m : M A) (Q : A → Prop) :
  returns m Q → returns (print line;; m) Q.
Proof. intros Hm s. apply Hm. Qed.

Lemma convert_docx_to_pdf_accepted req file (s : state) :
  multi_get "file" (files req) = Some file →
  PyStr.endswith (PyStr.lower (filename file)) ".docx" = true →
  ∃ r s', convert_docx_to_pdf req s = (Return r, s')
          ∧ success_or_error r
          ∧ known (uuid4_str (tick s)) s'.
Proof.
  intros Hfile Hext. unfold convert_docx_to_pdf. rewrite Hfile.
  destruct (String.eqb_spec (filename file) "") as [Hempty|_].
  { rewrite Hempty in Hext. vm_compute in Hext. discriminate Hext. }
  rewrite Hext. cbn [negb].
  apply registers_job.
  - intros file_id. preserves_steps.
  - intros file_id e. preserves_steps.
  - intros file_id. repeat (apply yields_bind; intros ?).
    match goal with |- yields (match ?x with _ => _ end) _ => destruct x end;
      repeat (apply yields_bind; intros ?); apply yields_ret; [by left | by right].
  - intros e. apply returns_print_then, returns_ret. by right.
Qed.

Lemma convert_pdf_to_docx_accepted req file (s : state) :
  multi_get "file" (files req) = Some file →
  PyStr.endswith (PyStr.lower (filename file)) ".pdf" = true →
  ∃ r s', convert_pdf_to_docx req s = (Return r, s')
          ∧ success_or_error r
          ∧ known (uuid4_str (tick s)) s'.
Proof.
  intros Hfile Hext. unfold convert_pdf_to_docx. rewrite Hfile.
  destruct (String.eqb_spec (filename file) "") as [Hempty|_].
  { rewrite Hempty in Hext. vm_compute in Hext. discriminate Hext. }
  rewrite Hext. cbn [negb].
  apply registers_job.
  - intros file_id. preserves_steps.
  - intros file_id e. preserves_steps.
  - intros file_id. do 2 (apply yields_bind; intros ?).
    apply (yields_bind_post _ _ (λ o, ∀ r, o = Some r → success_or_error r)).
    + apply yields_try.
      * apply yields_bind. intros ?. by apply yields_ret.
      * intros e. do 2 (apply yields_bind; intros ?). apply yields_ret.
        intros r [= <-]. by right.
    + intros [failure|] Hfailure.
      * apply yields_ret. by apply Hfailure.
      * repeat (apply yields_bind; intros ?). apply yields_ret. by left.
  - intros e. apply returns_print_then, returns_ret. by right.
Qed.

End AcceptedUpload.

(** X13. A single-file request whose upload has the expected extension is
    always answered, with 200 or with 500, never with an exception, and
    afterwards the registry holds a job under the identifier that was drawn
    for it, whether the conversion succeeded or not. *)
Theorem accepted_upload_becomes_job {E : Env} (req : request) (s : state) :
  (upload_named req ".docx" →
   ∃ r s', convert_docx_to_pdf req s = (Return r, s')
           ∧ success_or_error r
           ∧ known (uuid4_str (tick s)) s')
  ∧ (upload_named req ".pdf" →
     ∃ r s', convert_pdf_to_docx req s = (Return r, s')
             ∧ success_or_error r
             ∧ known (uuid4_str (tick s)) s').
Proof.
  split; intros (file & Hfile & Hext).
  - by eapply convert_docx_to_pdf_accepted.
  - by eapply convert_pdf_to_docx_accepted.
Qed.

Lemma accepted_upload_becomes_job_witness :
  ∃ r s', FailedBatch.run_not_installed = (Return r, s')
          ∧ success_or_error r
          ∧ known (Scenario.uuid_at 0) s'.
Proof.
  refine (proj1 (accepted_upload_becomes_job (E := Scenario.env_ok)
                   (Scenario.single "report.docx") Scenario.not_installed) _).
  exists {| filename := "report.docx" |}. split; reflexivity.
Defined.

(** ** Single-file conversions: success *)

(** X14. When the DOCX-to-PDF conversion answers 200, the identifier in the
    answer is the one drawn for the request, the job is recorded as
    completed with the output file [converted/<id>_<stem>.pdf], that file
    exists, and the staged upload [uploads/<id>_<name>] has been removed,
    where <name> is the sanitised file name and <stem> its stem. *)
Theorem successful_conversion_cleans_up {E : Env} (req : request) (s : state) (body : dict) :
  (convert_docx_to_pdf req s).1 = Return (Json body 200) →
  ∃ file,
    multi_get "file" (files req) = Some file
    ∧ body !! "file_id" = Some (VStr (uuid4_str (tick s)))
    ∧ conversion_status (convert_docx_to_pdf req s).2 !! uuid4_str (tick s)
      = Some (completed_record
                (PyPath.join CONVERTED_FOLDER
                   (uuid4_str (tick s) ++ "_"
                    ++ PyPath.stem (secure_filename (filename file)) ++ ".pdf"))
                (PyPath.stem (secure_filename (filename file)) ++ ".pdf"))
    ∧ PyPath.join CONVERTED_FOLDER
        (uuid4_str (tick s) ++ "_" ++ PyPath.stem (secure_filename (filename file)) ++ ".pdf")
      ∈ fs (convert_docx_to_pdf req s).2
    ∧ PyPath.join UPLOAD_FOLDER
        (uuid4_str (tick s) ++ "_" ++ secure_filename (filename file))
      ∉ fs (convert_docx_to_pdf req s).2.
Proof.
  unfold convert_docx_to_pdf.
  destruct (multi_get "file" (files req)) as [file|]; [|intros [=]].
  destruct (String.eqb (filename file) ""); [intros [=]|].
  destruct (negb _); [intros [=]|].
  unfold try_except.
  match goal with |- context [?body s] => destruct (body s) as [[resp|e] s'] eqn:Hrun end.
  2:{ intros [=]. }
  cbn [fst snd]. intros [= ->].
  apply bind_return_inv in Hrun as (file_id & s1 & [= <- <-] & Hrun).
  apply bind_return_inv in Hrun as ([] & s2 & [= <-] & Hrun).
  apply bind_return_inv in Hrun as ([] & s3 & ->%file_save_return_inv & Hrun).
  apply bind_return_inv in Hrun as ([] & s4 & Hprogress & Hrun).
  apply bind_return_inv in Hrun as (output_path & s5 & Hconvert & Hrun).
  destruct output_path as [output_path|].
  2:{ apply bind_return_inv in Hrun as ([] & s6 & _ & [=]). }
  apply bind_return_inv in Hrun as ([] & s6 & [Hout ->]%path_rename_return_inv & Hrun).
  apply bind_return_inv in Hrun as ([] & s7 & [= <-] & Hrun).
  apply bind_return_inv in Hrun as ([] & s8 & [_ ->]%path_unlink_return_inv & Hrun).
  injection Hrun as <- <-.
  exists file. split; [done|]. split; [by simplify_map_eq|]. simpl.
  split; [apply lookup_insert_eq|]. split.
  - apply elem_of_difference. split; [set_solver|].
    rewrite elem_of_singleton. apply staged_is_not_converted.
  - rewrite elem_of_difference, elem_of_singleton. tauto.
Qed.

Lemma successful_conversion_cleans_up_witness :
  ∃ file,
    multi_get "file" (files (Scenario.single "My report.docx")) = Some file
    ∧ completed_body SpacedName.job "My_report.pdf" !! "file_id"
      = Some (VStr (@uuid4_str Scenario.env_ok (tick Scenario.installed)))
    ∧ conversion_status
        (@convert_docx_to_pdf Scenario.env_ok (Scenario.single "My report.docx")
           Scenario.installed).2
      !! @uuid4_str Scenario.env_ok (tick Scenario.installed)
      = Some (completed_record
                (PyPath.join CONVERTED_FOLDER
                   (@uuid4_str Scenario.env_ok (tick Scenario.installed) ++ "_"
                    ++ PyPath.stem (@secure_filename Scenario.env_ok (filename file))
                    ++ ".pdf"))
                (PyPath.stem (@secure_filename Scenario.env_ok (filename file)) ++ ".pdf"))
    ∧ PyPath.join CONVERTED_FOLDER
        (@uuid4_str Scenario.env_ok (tick Scenario.installed) ++ "_"
         ++ PyPath.stem (@secure_filename Scenario.env_ok (filename file)) ++ ".pdf")
      ∈ fs (@convert_docx_to_pdf Scenario.env_ok (Scenario.single "My report.docx")
              Scenario.installed).2
    ∧ PyPath.join UPLOAD_FOLDER
        (@uuid4_str Scenario.env_ok (tick Scenario.installed) ++ "_"
         ++ @secure_filename Scenario.env_ok (filename file))
      ∉ fs (@convert_docx_to_pdf Scenario.env_ok (Scenario.single "My report.docx")
              Scenario.installed).2.
Proof.
  refine (successful_conversion_cleans_up (E := Scenario.env_ok)
            (Scenario.single "My report.docx") Scenario.installed
            (completed_body SpacedName.job "My_report.pdf") _).
  vm_compute. reflexivity.
Defined.

(** ** PDF to DOCX *)

Section PdfToDocx.
Context {E : Env}.

Lemma convert_pdf_to_docx_steps req file (s : state) :
  multi_get "file" (files req) = Some file →
  PyStr.endswith (PyStr.lower (filename file)) ".pdf" = true →
  save_error (S (tick s)) (staged_path s file) = None →
  convert_pdf_to_docx req s
  = (let staged := staged_path s file in
     let final := output_path s file ".docx" in
     let name := PyPath.stem (secure_filename (filename file)) ++ ".docx" in
     let file_id := uuid4_str (tick s) in
     let reg := <[file_id := <["progress" := VInt 30]> processing_record]>
                  (<[file_id := processing_record]> (conversion_status s)) in
     let hist := <[file_id := processing_record]> (conversion_status s)
                 :: conversion_status s :: history s in
     let '(err, disk) := pdf2docx (S (S (tick s))) staged final ({[staged]} ∪ fs s) in
     let s3 := {| conversion_status := reg; fs := disk; archives := archives s;
                  stdout := stdout s; tick := S (S (S (tick s))); history := hist |} in
     match err with
     | Some e =>
         (Return (Json (error_body ("Conversion failed: " ++ exn_str e)) 500),
          with_status (<[file_id := error_record ("Conversion failed: " ++ exn_str e)]> reg)
            (with_stdout (stdout s ++ [printed_line "pdf2docx error: " e])%list s3))
     | None =>
         let s4 := with_status (<[file_id := completed_record final name]> reg) s3 in
         if bool_decide (staged ∈ disk)
         then (Return (Json (completed_body file_id name) 200),
               with_fs (disk ∖ {[staged]}) s4)
         else (Return (Json (error_body (exn_str (no_such_file ("'" ++ staged ++ "'")))) 500),
               with_stdout
                 (stdout s ++ [printed_line "Error: " (no_such_file ("'" ++ staged ++ "'"))])%list
                 s4)
     end).
Proof.
  intros Hfile Hext Hsave. unfold convert_pdf_to_docx. rewrite Hfile.
  destruct (String.eqb_spec (filename file) "") as [Hempty|_].
  { rewrite Hempty in Hext. vm_compute in Hext. discriminate Hext. }
  rewrite Hext. cbn [negb].
  unfold try_except at 1, mbind, M_bind, uuid4, status_set, modify.
  unfold file_save. cbn [tick next_tick with_status].
  fold (staged_path s file). rewrite Hsave.
  unfold status_set_item, mbind, M_bind, status_get.
  cbn [conversion_status with_fs next_tick with_status]. rewrite lookup_insert_eq.
  unfold status_set, modify, try_except, mbind, M_bind, pdf2docx_convert.
  cbn [tick fs conversion_status with_fs next_tick with_status].
  fold (output_path s file ".docx").
  destruct (pdf2docx _ _ _ _) as [[e|] disk]; [done|].
  unfold path_unlink. cbn [mret M_ret].
  cbn [tick fs conversion_status with_fs next_tick with_status].
  by case_bool_decide.
Qed.

End PdfToDocx.

Lemma download_file_missing_output (s : state) (file_id : string) (r : dict) (out : string) :
  conversion_status s !! file_id = Some r →
  r !! "status" = Some (VStr "completed") →
  r !! "output_file" = Some (VStr out) →
  out ∉ fs s →
  download_file file_id s = (Return (Json (error_body "File not found") 404), s).
Proof.
  intros Hr Hst Hout Hdisk.
  unfold download_file, mbind, M_bind. rewrite status_contains_eq.
  rewrite bool_decide_eq_true_2 by eauto. cbn [negb].
  rewrite (status_get_some _ r) by done.
  rewrite (getitem_some _ _ (VStr "completed")) by done.
  rewrite bool_decide_eq_true_2 by done. cbn [negb].
  rewrite (getitem_some _ _ (VStr out)) by done. cbn [as_path mret M_ret].
  rewrite path_exists_eq. by rewrite bool_decide_eq_false_2.
Qed.

(** X15. When [pdf2docx] raises on a staged PDF, the request is answered
    with 500 and the text [Conversion failed: ] followed by the text of the
    exception, the job is recorded as [error] with the same message, and the
    handler leaves the disk as the converter left it: the staged upload is
    not removed. *)
Theorem failed_pdf_conversion_is_recorded {E : Env} (req : request) (file : FileStorage)
    (s : state) (e : exn) (disk : gset string) :
  multi_get "file" (files req) = Some file →
  PyStr.endswith (PyStr.lower (filename file)) ".pdf" = true →
  save_error (S (tick s)) (staged_path s file) = None →
  pdf2docx (S (S (tick s))) (staged_path s file) (output_path s file ".docx")
    ({[staged_path s file]} ∪ fs s) = (Some e, disk) →
  (convert_pdf_to_docx req s).1
  = Return (Json (error_body ("Conversion failed: " ++ exn_str e)) 500)
  ∧ conversion_status (convert_pdf_to_docx req s).2 !! uuid4_str (tick s)
    = Some (error_record ("Conversion failed: " ++ exn_str e))
  ∧ fs (convert_pdf_to_docx req s).2 = disk.
Proof.
  intros Hfile Hext Hsave Hpdf.
  rewrite (convert_pdf_to_docx_steps req file s Hfile Hext Hsave).
  cbv zeta. rewrite Hpdf. split; [done|]. split; [|done].
  simpl. apply lookup_insert_eq.
Qed.

Lemma failed_pdf_conversion_is_recorded_witness :
  (@convert_pdf_to_docx PdfPath.env_rejects PdfPath.req Scenario.installed).1
  = Return (Json (error_body ("Conversion failed: " ++ exn_str PdfPath.scanned)) 500)
  ∧ conversion_status
      (@convert_pdf_to_docx PdfPath.env_rejects PdfPath.req Scenario.installed).2
    !! @uuid4_str PdfPath.env_rejects (tick Scenario.installed)
    = Some (error_record ("Conversion failed: " ++ exn_str PdfPath.scanned))
  ∧ fs (@convert_pdf_to_docx PdfPath.env_rejects PdfPath.req Scenario.installed).2
    = {[ "uploads/" ++ Scenario.uuid_at 0 ++ "_scan.pdf" ]} ∪ fs Scenario.installed.
Proof.
  refine (failed_pdf_conversion_is_recorded (E := PdfPath.env_rejects) PdfPath.req
            {| filename := "scan.pdf" |} Scenario.installed PdfPath.scanned
            ({[ "uploads/" ++ Scenario.uuid_at 0 ++ "_scan.pdf" ]} ∪ fs Scenario.installed)
            _ _ _ _); reflexivity.
Defined.

(** X16. The PDF-to-DOCX handler does not look for the converted document:
    when [pdf2docx] returns without an exception, the request is answered
    with 200 and the job is recorded as completed, whether or not the output
    file was written; the staged upload is removed. If the output file was
    not written, a download of the completed job answers 404. *)
Theorem pdf_conversion_trusts_the_converter {E : Env} (req : request) (file : FileStorage)
    (s : state) (disk : gset string) :
  multi_get "file" (files req) = Some file →
  PyStr.endswith (PyStr.lower (filename file)) ".pdf" = true →
  save_error (S (tick s)) (staged_path s file) = None →
  pdf2docx (S (S (tick s))) (staged_path s file) (output_path s file ".docx")
    ({[staged_path s file]} ∪ fs s) = (None, disk) →
  staged_path s file ∈ disk →
  (convert_pdf_to_docx req s).1
  = Return (Json (completed_body (uuid4_str (tick s))
                    (PyPath.stem (secure_filename (filename file)) ++ ".docx")) 200)
  ∧ conversion_status (convert_pdf_to_docx req s).2 !! uuid4_str (tick s)
    = Some (completed_record (output_path s file ".docx")
              (PyPath.stem (secure_filename (filename file)) ++ ".docx"))
  ∧ fs (convert_pdf_to_docx req s).2 = disk ∖ {[staged_path s file]}
  ∧ (output_path s file ".docx" ∉ disk →
     download_file (uuid4_str (tick s)) (convert_pdf_to_docx req s).2
     = (Return (Json (error_body "File not found") 404), (convert_pdf_to_docx req s).2)).
Proof.
  intros Hfile Hext Hsave Hpdf Hstaged.
  rewrite (convert_pdf_to_docx_steps req file s Hfile Hext Hsave).
  cbv zeta. rewrite Hpdf. rewrite bool_decide_eq_true_2 by done.
  split; [done|].
  match goal with |- context [download_file _ ?st] => set (final_state := st) end.
  assert (Hrecord : conversion_status final_state !! uuid4_str (tick s)
                    = Some (completed_record (output_path s file ".docx")
                              (PyPath.stem (secure_filename (filename file)) ++ ".docx"))).
  { subst final_state. simpl. apply lookup_insert_eq. }
  split; [exact Hrecord|]. split; [done|].
  intros Hmissing.
  apply (download_file_missing_output _ _ _ (output_path s file ".docx") Hrecord);
    [by simplify_map_eq | by simplify_map_eq |].
  subst final_state. simpl. rewrite elem_of_difference. tauto.
Qed.

Lemma pdf_conversion_trusts_the_converter_witness :
  (@convert_pdf_to_docx PdfPath.env_silent PdfPath.req Scenario.installed).1
  = Return (Json (completed_body (@uuid4_str PdfPath.env_silent (tick Scenario.installed))
                    (PyPath.stem (@secure_filename PdfPath.env_silent
                                    (filename {| filename := "scan.pdf" |})) ++ ".docx")) 200)
  ∧ download_file (@uuid4_str PdfPath.env_silent (tick Scenario.installed))
      (@convert_pdf_to_docx PdfPath.env_silent PdfPath.req Scenario.installed).2
    = (Return (Json (error_body "File not found") 404),
       (@convert_pdf_to_docx PdfPath.env_silent PdfPath.req Scenario.installed).2).
Proof.
  destruct (pdf_conversion_trusts_the_converter (E := PdfPath.env_silent) PdfPath.req
              {| filename := "scan.pdf" |} Scenario.installed
              ({[ "uploads/" ++ Scenario.uuid_at 0 ++ "_scan.pdf" ]} ∪ fs Scenario.installed))
    as (Hanswer & _ & _ & Hdownload).
  - reflexivity.
  - reflexivity.
  - reflexivity.
  - reflexivity.
  - apply (bool_decide_unpack _). vm_compute. exact I.
  - split; [exact Hanswer|]. apply Hdownload.
    apply (bool_decide_unpack _). vm_compute. exact I.
Defined.

(** ** Batches *)

Section RejectedBatch.
Context {E : Env}.

Lemma convert_batch_loop_rejected direction todo results (s : state) :
  Forall (λ file, PyStr.endswith (PyStr.lower (filename file))
                    (expected_extension direction) = false) todo →
  convert_batch_loop direction todo results s
  = (Return (results
             ++ map (λ file, batch_error (filename file) "Invalid file type") (named todo))%list,
     s).
Proof.
  intros Hall. revert results.
  induction Hall as [|file todo Hfile _ IH]; intros results; simpl.
  - by rewrite app_nil_r.
  - unfold mbind, M_bind, convert_batch_file. fold (expected_extension direction).
    unfold named. destruct (String.eqb_spec (filename file) "") as [Hempty|Hname].
    + rewrite filter_cons_False by (by intros ?). apply IH.
    + rewrite filter_cons_True by done. rewrite Hfile. cbn [negb mret M_ret].
      rewrite IH. simpl. by rewrite <- app_assoc.
Qed.

End RejectedBatch.

(** X17. A batch in which no file has the extension the direction asks for
    creates no job and changes nothing: every named file gets the inline
    error [Invalid file type], in order, and the state is the one before the
    request. *)
Theorem rejected_batch_changes_nothing {E : Env} (req : request) (s : state) :
  is_Some (multi_get "files" (files req)) →
  Forall (λ file, PyStr.endswith (PyStr.lower (filename file))
                    (expected_extension (batch_direction req)) = false)
    (multi_getlist "files" (files req)) →
  convert_batch req s
  = (Return (JsonResults
               (map (λ file, batch_error (filename file) "Invalid file type")
                  (named (multi_getlist "files" (files req))))),
     s).
Proof.
  intros [first Hfirst] Hall. unfold convert_batch. rewrite Hfirst.
  unfold mbind, M_bind. fold (batch_direction req).
  by rewrite convert_batch_loop_rejected.
Qed.

Lemma rejected_batch_changes_nothing_witness :
  @convert_batch Scenario.env_ok (Scenario.batch ["a.docx"; ""; "b.txt"] "pdf-to-docx")
    Scenario.installed
  = (Return (JsonResults [ batch_error "a.docx" "Invalid file type";
                           batch_error "b.txt" "Invalid file type" ]),
     Scenario.installed).
Proof.
  refine (rejected_batch_changes_nothing (E := Scenario.env_ok)
            (Scenario.batch ["a.docx"; ""; "b.txt"] "pdf-to-docx") Scenario.installed _ _).
  - by eexists.
  - repeat constructor.
Defined.

(** X18. The batch handler knows one direction by name: a request with any
    other value of [direction] is handled exactly as a request for
    [pdf-to-docx]. *)
Theorem unknown_direction_means_pdf_to_docx {E : Env} (direction : string)
    (uploads : list (string * FileStorage)) (s : state) :
  direction ≠ "docx-to-pdf" →
  convert_batch {| files := uploads; form := [("direction", direction)] |} s
  = convert_batch {| files := uploads; form := [("direction", "pdf-to-docx")] |} s.
Proof.
  intros Hdir. unfold convert_batch. simpl.
  destruct (multi_get "files" uploads); [|done].
  assert (Hfile : ∀ file results,
            convert_batch_file direction file results
            = convert_batch_file "pdf-to-docx" file results).
  { intros file results. unfold convert_batch_file.
    destruct (String.eqb_spec direction "docx-to-pdf") as [?|_]; [done|]. done. }
  assert (Hloop : ∀ todo results s0,
            convert_batch_loop direction todo results s0
            = convert_batch_loop "pdf-to-docx" todo results s0).
  { induction todo as [|file todo IH]; intros results s0; simpl; [done|].
    unfold mbind, M_bind. rewrite Hfile.
    destruct (convert_batch_file "pdf-to-docx" file results s0) as [[results'|e] s1];
      [apply IH | done]. }
  unfold mbind, M_bind. by rewrite Hloop.
Qed.

Lemma unknown_direction_means_pdf_to_docx_witness :
  @convert_batch Scenario.env_ok
    {| files := [Scenario.upload "files" "scan.pdf"]; form := [("direction", "to-word")] |}
    Scenario.installed
  = @convert_batch Scenario.env_ok
      {| files := [Scenario.upload "files" "scan.pdf"];
         form := [("direction", "pdf-to-docx")] |}
      Scenario.installed.
Proof.
  apply (unknown_direction_means_pdf_to_docx (E := Scenario.env_ok) "to-word").
  intros Hdir. discriminate Hdir.
Defined.

(** ** The forms of a job record *)

Lemma registry_formed_registry_only : registry_only registry_formed.
Proof. intros s s' Hst _. unfold registry_formed. by rewrite Hst. Qed.

Section HandlersKeepForms.
Context {E : Env}.

Lemma formed_status_set file_id r :
  job_form r → preserves registry_formed (status_set file_id r).
Proof.
  intros Hr s Hs k r'. unfold status_set, modify. simpl.
  rewrite lookup_insert. case_decide; [by intros [= <-] | apply Hs].
Qed.

(** The first steps of a single-file conversion: the job is created, the
    upload is staged, and the progress of the new job is set. *)
Lemma formed_staging {A} (file_id p : string) (rest : M A) :
  preserves registry_formed rest →
  preserves registry_formed
    (status_set file_id processing_record;;
     file_save p;;
     status_set_item file_id "progress" (VInt 30);;
     rest).
Proof.
  intros Hrest s Hs. unfold mbind, M_bind.
  unfold status_set at 1, modify at 1.
  set (s1 := with_status _ s).
  assert (Hs1 : registry_formed s1)
    by exact (formed_status_set file_id processing_record form_processing s Hs).
  unfold file_save. destruct (save_error _ _); [exact Hs1|].
  set (s2 := with_fs _ _).
  assert (Hs2 : registry_formed s2) by exact Hs1.
  unfold status_set_item, mbind, M_bind.
  rewrite (status_get_some file_id processing_record s2)
    by (subst s2 s1; simpl; apply lookup_insert_eq).
  apply Hrest. by apply (formed_status_set file_id _ form_saved s2).
Qed.

#[local] Hint Resolve registry_formed_registry_only formed_status_set
  form_processing form_error form_completed : preserves.

Lemma convert_docx_to_pdf_formed req : preserves registry_formed (convert_docx_to_pdf req).
Proof.
  unfold convert_docx_to_pdf. repeat case_match; auto with preserves.
  apply preserves_try; [|intros e; preserves_steps].
  apply preserves_bind; [auto with preserves|intros file_id].
  apply formed_staging. preserves_steps.
Qed.

Lemma convert_pdf_to_docx_formed req : preserves registry_formed (convert_pdf_to_docx req).
Proof.
  unfold convert_pdf_to_docx. repeat case_match; auto with preserves.
  apply preserves_try; [|intros e; preserves_steps].
  apply preserves_bind; [auto with preserves|intros file_id].
  apply formed_staging. preserves_steps.
Qed.

Lemma convert_batch_formed req : preserves registry_formed (convert_batch req).
Proof.
  unfold convert_batch. destruct (multi_get "files" (files req)); [|auto with preserves].
  apply preserves_bind; [|auto with preserves].
  generalize (@nil dict). induction (multi_getlist "files" (files req)) as [|file rest IH];
    intros results; simpl; [auto with preserves|].
  apply preserves_bind; [|intros ?; apply IH].
  unfold convert_batch_file. preserves_steps.
Qed.

Lemma download_bulk_formed file_ids : preserves registry_formed (download_bulk file_ids).
Proof.
  unfold download_bulk. destruct file_ids as [|file_id rest]; [auto with preserves|].
  apply preserves_bind; [auto with preserves|intros zip_id].
  apply preserves_bind; [auto with preserves|intros _].
  apply preserves_bind; [|auto with preserves].
  induction (file_id :: rest) as [|j js IH]; simpl; [auto with preserves|].
  apply preserves_bind; [|intros ?; apply IH].
  unfold download_bulk_add. preserves_steps.
Qed.

Lemma health_check_formed : preserves registry_formed health_check.
Proof. unfold health_check. preserves_steps. Qed.

End HandlersKeepForms.

(** X19. In every state the server can reach, a job record has one of four
    exact forms: [processing] with progress 0, [processing] with progress
    30, [error] with a message and nothing else, or [completed] with
    progress 100, an output file and a display name. *)
Theorem job_records_have_four_forms (s : state) (file_id : string) (r : dict) :
  reachable s →
  conversion_status s !! file_id = Some r →
  r = processing_record
  ∨ r = <["progress" := VInt 30]> processing_record
  ∨ (∃ message, r = error_record message)
  ∨ (∃ output_file original_name, r = completed_record output_file original_name).
Proof.
  intros Hreach Hr.
  assert (Hformed : registry_formed s).
  { clear Hr. induction Hreach as [on_disk | s on_disk _ IH | E req s _ IH | E req s _ IH
                 | E req s _ IH | k s _ IH | E file_ids s _ IH
                 | k s _ IH | E s _ IH].
    - intros k r'. simpl. by rewrite lookup_empty.
    - by eapply registry_formed_registry_only.
    - by apply convert_docx_to_pdf_formed.
    - by apply convert_pdf_to_docx_formed.
    - by apply convert_batch_formed.
    - destruct (queries_hold k s) as [-> _]. exact IH.
    - by apply download_bulk_formed.
    - destruct (queries_hold k s) as [_ ->]. exact IH.
    - by apply health_check_formed. }
  destruct (Hformed file_id r Hr); eauto 6.
Qed.

Lemma job_records_have_four_forms_witness :
  error_record "Conversion failed" = processing_record
  ∨ error_record "Conversion failed" = <["progress" := VInt 30]> processing_record
  ∨ (∃ message, error_record "Conversion failed" = error_record message)
  ∨ (∃ output_file original_name,
       error_record "Conversion failed" = completed_record output_file original_name).
Proof.
  apply (job_records_have_four_forms Downloads.two_jobs Downloads.failed_id).
  - apply (reach_docx_to_pdf Scenario.env_fail).
    apply (reach_docx_to_pdf Scenario.env_ok). apply reach_start.
  - vm_compute. reflexivity.
Defined.

(** ** What the gateway prints *)

(** X20. The gateway prints nothing when it returns a path or raises its
    not-found error, and exactly one line when it returns [None]: the line
    [Conversion timeout] when the process ran for more than 60 seconds, and
    one line when the conversion failed. *)
Theorem gateway_prints_one_line_per_failure {E : Env}
    (input_file output_dir output_format : string) (s : state) :
  match contract_result input_file output_dir output_format s with
  | Converted _ | ConversionUnavailable =>
      stdout (convert_with_libreoffice input_file output_dir output_format s).2 = stdout s
  | ConversionTimeout =>
      stdout (convert_with_libreoffice input_file output_dir output_format s).2
      = (stdout s ++ ["Conversion timeout"])%list
  | ConversionFailed =>
      ∃ line,
        stdout (convert_with_libreoffice input_file output_dir output_format s).2
        = (stdout s ++ [line])%list
  end.
Proof.
  unfold convert_with_libreoffice, contract_result, mbind, M_bind.
  destruct (find_libreoffice_frame s) as (soffice_path & s1 & -> & _ & _ & Hout & _).
  rewrite <- Hout.
  destruct (falsy_path soffice_path); [done|].
  unfold try_except, subprocess_run.
  set (p := exec _ _ _).
  destruct (spawn_error p) as [e|].
  - unfold mbind, M_bind, print, modify. destruct e as [[] msg]; by eexists.
  - rewrite N.ltb_antisym. destruct (running_time p <=? 60)%N; simpl; [|done].
    destruct (returncode p =? 0)%Z; simpl; [|by eexists].
    unfold mbind, M_bind, path_exists, gets. simpl.
    destruct (bool_decide _); [done | by eexists].
Qed.
